(** * Book-spine pipeline: a shallow embedding of [main.py]

    The Flask application in [main.py] chains three external services
    (PaddleOCR, an OpenAI assistant, the Hardcover GraphQL catalog) behind one
    endpoint, [POST /process-image].  The file below embeds the four Python
    functions of that module ([ocr_image], [clean_text_with_openai],
    [query_hardcover_graphql], [process_image]) as Rocq functions over

    - a datatype of Python/JSON values with the dynamic operations the source
      applies to them ([in], subscripting, [.get], truthiness, iteration),
    - an exception-and-trace monad: a computation either returns or raises,
      and records the calls it makes to the external services,
    - a record of backends, one field per library call whose answer the
      module cannot compute itself.

    Python [str] is modelled by [string]; every character is a code point
    below 256. *)

From Stdlib Require Import List String Ascii ZArith Bool Lia.
From Stdlib Require Import Floats.PrimFloat.
From Stdlib Require Import Init.Byte DecimalString.
Import ListNotations.

Local Open Scope string_scope.
Local Open Scope list_scope.
Local Open Scope Z_scope.

(** ** Python values *)

Module Py.

(** The values [json.loads] and [response.json()] can produce, which are also
    the values [jsonify] accepts.  A [dict] keeps its entries in insertion
    order; its keys are strings because all dicts here come from JSON or from
    literals of the source. *)
#[warnings="-register-all"]
Inductive pyval : Type :=
| PyNone
| PyBool (b : bool)
| PyInt (z : Z)
| PyFloat (f : float)
| PyStr (s : string)
| PyList (items : list pyval)
| PyDict (entries : list (string * pyval)).

(** Exception classes, as far as the [except] clauses of the source tell them
    apart.  [JSONDecodeError] is [json.JSONDecodeError]; [RequestException]
    stands for [requests.exceptions.RequestException] and its subclasses
    ([ConnectionError], [Timeout], [HTTPError], [JSONDecodeError] of
    requests); [OtherException] for every other subclass of [Exception]
    ([ValueError], [RecursionError], [OSError]); [BaseExceptionOnly] for the
    classes that do not derive from [Exception] ([KeyboardInterrupt],
    [SystemExit]). *)
Inductive exn_class : Type :=
| TypeError
| AttributeError
| KeyError
| JSONDecodeError
| RequestException
| OtherException
| BaseExceptionOnly.

(** An exception object; [str_e] is what [str(e)] evaluates to. *)
Record exn : Type := Exn { class_of : exn_class; str_e : string }.

Inductive outcome (A : Type) : Type :=
| Raises (e : exn)
| Returns (a : A).
Arguments Raises {A} e.
Arguments Returns {A} a.

(** [isinstance(e, Exception)] *)
Definition is_Exception (e : exn) : bool :=
  match class_of e with
  | BaseExceptionOnly => false
  | _ => true
  end.

(** [isinstance(e, json.JSONDecodeError)] *)
Definition is_JSONDecodeError (e : exn) : bool :=
  match class_of e with
  | JSONDecodeError => true
  | _ => false
  end.

(** [isinstance(e, requests.exceptions.RequestException)] *)
Definition is_RequestException (e : exn) : bool :=
  match class_of e with
  | RequestException => true
  | _ => false
  end.

(** [type(v).__name__] *)
Definition type_name (v : pyval) : string :=
  match v with
  | PyNone => "NoneType"
  | PyBool _ => "bool"
  | PyInt _ => "int"
  | PyFloat _ => "float"
  | PyStr _ => "str"
  | PyList _ => "list"
  | PyDict _ => "dict"
  end.

(** [bool(v)]: [None], [False], zero, and empty containers are falsy. *)
Definition truthy (v : pyval) : bool :=
  match v with
  | PyNone => false
  | PyBool b => b
  | PyInt z => negb (z =? 0)
  | PyFloat f => negb (PrimFloat.eqb f PrimFloat.zero)
  | PyStr s => negb (s =? "")%string
  | PyList l => match l with [] => false | _ :: _ => true end
  | PyDict d => match d with [] => false | _ :: _ => true end
  end.

(** [d.get(k)] on the entries of a dict: the value bound to the key. *)
Fixpoint lookup (k : string) (d : list (string * pyval)) : option pyval :=
  match d with
  | [] => None
  | (k', v) :: d' => if (k =? k')%string then Some v else lookup k d'
  end.

(** [v == k] for a string [k]: only a [str] with the same characters. *)
Definition eq_str (k : string) (v : pyval) : bool :=
  match v with
  | PyStr s => (k =? s)%string
  | _ => false
  end.

(** [needle in hay] for two strings: the substring test. *)
Fixpoint substring_of (needle hay : string) : bool :=
  String.prefix needle hay ||
  match hay with
  | EmptyString => false
  | String _ rest => substring_of needle rest
  end.

(** The one-character strings a [for] loop over a [str] yields. *)
Fixpoint chars (s : string) : list pyval :=
  match s with
  | EmptyString => []
  | String c rest => PyStr (String c EmptyString) :: chars rest
  end.

(** [k in v] for a string [k]: key membership in a dict, element equality in a
    list, substring test in a str; any other operand is not iterable. *)
Definition contains (k : string) (v : pyval) : outcome bool :=
  match v with
  | PyDict d => Returns (match lookup k d with Some _ => true | None => false end)
  | PyList l => Returns (existsb (eq_str k) l)
  | PyStr s => Returns (substring_of k s)
  | _ => Raises (Exn TypeError
                   ("argument of type '" ++ type_name v ++ "' is not iterable"))
  end.

(** [v[k]] for a string [k]. *)
Definition getitem (v : pyval) (k : string) : outcome pyval :=
  match v with
  | PyDict d =>
      match lookup k d with
      | Some x => Returns x
      | None => Raises (Exn KeyError ("'" ++ k ++ "'"))
      end
  | PyList _ =>
      Raises (Exn TypeError "list indices must be integers or slices, not str")
  | PyStr _ =>
      Raises (Exn TypeError "string indices must be integers, not 'str'")
  | _ => Raises (Exn TypeError
                   ("'" ++ type_name v ++ "' object is not subscriptable"))
  end.

(** [v.get(k, default)]: only a dict has the method. *)
Definition get (v : pyval) (k : string) (default : pyval) : outcome pyval :=
  match v with
  | PyDict d =>
      Returns (match lookup k d with Some x => x | None => default end)
  | _ => Raises (Exn AttributeError
                   ("'" ++ type_name v ++ "' object has no attribute 'get'"))
  end.

(** The elements [for x in v] visits. *)
Definition iterate (v : pyval) : outcome (list pyval) :=
  match v with
  | PyList l => Returns l
  | PyDict d => Returns (map (fun kv => PyStr (fst kv)) d)
  | PyStr s => Returns (chars s)
  | _ => Raises (Exn TypeError
                   ("'" ++ type_name v ++ "' object is not iterable"))
  end.

(** [str.strip()]: the characters Python counts as whitespace, among the code
    points below 256. *)
Definition is_space (c : ascii) : bool :=
  let n := nat_of_ascii c in
  ((9 <=? n) && (n <=? 13) || (28 <=? n) && (n <=? 32)
   || (n =? 133) || (n =? 160))%nat.

Fixpoint lstrip (s : string) : string :=
  match s with
  | EmptyString => EmptyString
  | String c rest => if is_space c then lstrip rest else s
  end.

Fixpoint rstrip (s : string) : string :=
  match s with
  | EmptyString => EmptyString
  | String c rest =>
      match rstrip rest with
      | EmptyString => if is_space c then EmptyString else String c EmptyString
      | r => String c r
      end
  end.

Definition strip (s : string) : string := lstrip (rstrip s).

End Py.

(** ** Computations that call the outside world *)

Module Run.
Import Py.

(** The calls the module makes to its collaborators, in the order made. *)
Inductive event : Type :=
| SaveUpload (path : string) (data : list byte)
| OcrCall (path : string)
| AssistantCall (text : string)
| CatalogCall (similar_title : pyval).

(** A computation returns or raises, and leaves the trace of its calls. *)
Definition M (A : Type) : Type := outcome A * list event.

Definition ret {A} (a : A) : M A := (Returns a, []).

Definition raise {A} (e : exn) : M A := (Raises e, []).

Definition bind {A B} (m : M A) (f : A -> M B) : M B :=
  match m with
  | (Raises e, t) => (Raises e, t)
  | (Returns a, t) => let (r, t') := f a in (r, t ++ t')
  end.

(** A pure operation that may raise. *)
Definition lift {A} (o : outcome A) : M A := (o, []).

(** A call to a collaborator: the event is recorded, the answer is the
    collaborator's. *)
Definition call {A} (ev : event) (answer : outcome A) : M A := (answer, [ev]).

(** [try: body  except C as e: handler(e)], where [catches] decides
    [isinstance(e, C)]. *)
Definition try_except {A} (body : M A) (catches : exn -> bool)
    (handler : exn -> M A) : M A :=
  match body with
  | (Raises e, t) =>
      if catches e then let (r, t') := handler e in (r, t ++ t')
      else (Raises e, t)
  | (Returns a, t) => (Returns a, t)
  end.

Declare Scope run_scope.
Delimit Scope run_scope with run.
Notation "x <- m ;; k" := (bind m (fun x => k))
  (at level 61, m at next level, right associativity) : run_scope.
Notation "m ;;; k" := (bind m (fun _ => k))
  (at level 61, right associativity) : run_scope.

End Run.

(** ** The application *)

Module App.
Import Py Run.
Local Open Scope run_scope.

(** *** Collaborators *)

(** One PaddleOCR detection, [[box, (text, confidence)]]: the four corner
    points of the box, then the recognised text with its confidence. *)
Definition word_info : Type := list (float * float) * (string * float).

(** What [ocr_model.ocr] returns: one entry per line, [None] where the
    engine detected nothing. *)
Definition ocr_result : Type := list (option (list word_info)).

(** A part of an assistant message; only a text part has [.text.value]. *)
Inductive content_part : Type :=
| TextPart (value : string)
| ImageFilePart
| ImageUrlPart
| RefusalPart.

Record message : Type := Message { role : string; content : list content_part }.

(** The [requests.Response] of the catalog: [json] is what [response.json()]
    does, return the decoded body or raise. *)
Record response : Type := Response {
  status_code : Z;
  reason : string;
  url : string;
  json : outcome pyval
}.

(** The answers of the outside world.
    - [ocr path data]: [ocr_model.ocr(path, cls=True)] when the file at [path]
      holds [data];
    - [assistant text]: the thread is created, [text] posted, the run streamed
      to its end, and the messages of the thread listed, in the order the
      listing yields them (newest first);
    - [json_loads s]: [json.loads(s)], which returns the decoded document or
      raises: [JSONDecodeError] for a text that is no JSON, and also
      [ValueError] or [RecursionError] for some texts that are;
    - [requests_post title]: [requests.post] of the catalog query whose
      [similarTitle] variable is [title].
    Each answer is a function of what the collaborator is sent: asked the
    same thing twice, it answers the same. *)
Record world : Type := World {
  ocr : string -> list byte -> outcome ocr_result;
  assistant : string -> outcome (list message);
  json_loads : string -> outcome pyval;
  requests_post : pyval -> outcome response
}.

(** The dict [{"error": detail}] all three error conventions build. *)
Definition error_dict (detail : pyval) : pyval := PyDict [("error", detail)].

(** *** [ocr_image] (lines 43-56) *)

(** [text += word_info[1][0] + ' '] *)
Definition add_word (text : string) (w : word_info) : string :=
  (text ++ (fst (snd w) ++ " "))%string.

(** The inner [for word_info in line]; a [None] line is not iterable. *)
Definition scan_line (text : string) (line : option (list word_info))
  : outcome string :=
  match line with
  | None => Raises (Exn TypeError "'NoneType' object is not iterable")
  | Some words => Returns (fold_left add_word words text)
  end.

(** The outer [for line in result]. *)
Fixpoint scan_lines (text : string) (result : ocr_result) : outcome string :=
  match result with
  | [] => Returns text
  | line :: rest =>
      match scan_line text line with
      | Raises e => Raises e
      | Returns text' => scan_lines text' rest
      end
  end.

(** [data] is the content of the file at [image_path], which [process_image]
    has just written. *)
Definition ocr_image (w : world) (image_path : string) (data : list byte)
  : M string :=
  try_except
    (result <- call (OcrCall image_path) (ocr w image_path data) ;;
     text <- lift (scan_lines "" result) ;;
     ret (strip text))
    is_Exception
    (fun e => ret (str_e e)).

(** *** [clean_text_with_openai] (lines 82-128) *)

Definition is_assistant (m : message) : bool := (role m =? "assistant")%string.

(** The loop over the parts of the assistant's message: [inl] is the value the
    function returns from inside the loop, [inr] is [response_json] when the
    loop ends or breaks; an exception of [json.loads] that is no
    [JSONDecodeError] passes the [except] clause of line 121. *)
Fixpoint first_text_json (w : world) (parts : list content_part)
  : outcome (pyval + pyval) :=
  match parts with
  | [] => Returns (inr PyNone)
  | TextPart value :: _ =>
      match json_loads w value with
      | Returns v => Returns (inr v)
      | Raises e =>
          if is_JSONDecodeError e then
            Returns (inl (error_dict
                            (PyStr "Failed to decode JSON from assistant response")))
          else Raises e
      end
  | _ :: rest => first_text_json w rest
  end.

Definition invalid_schema : pyval :=
  error_dict (PyStr "Invalid response schema").

Definition clean_text_with_openai (w : world) (text : string) : M pyval :=
  messages <- call (AssistantCall text) (assistant w text) ;;
  match find is_assistant messages with
  | None => ret (error_dict (PyStr "Assistant response not found"))
  | Some assistant_message =>
      scanned <- lift (first_text_json w (content assistant_message)) ;;
      match scanned with
      | inl early => ret early
      | inr response_json =>
          if truthy response_json then
            has_books <- lift (contains "books" response_json) ;;
            if has_books then lift (getitem response_json "books")
            else ret invalid_schema
          else ret invalid_schema
      end
  end.

(** *** [query_hardcover_graphql] (lines 131-172) *)

(** The status line in decimal, as an f-string prints it. *)
Definition status_text (n : Z) : string := NilZero.string_of_int (Z.to_int n).

(** [response.raise_for_status()] of requests: [HTTPError], a
    [RequestException], for a 4xx or 5xx status and nothing otherwise. *)
Definition raise_for_status (r : response) : outcome unit :=
  let n := status_code r in
  if (400 <=? n) && (n <? 500) then
    Raises (Exn RequestException
              (status_text n ++ " Client Error: " ++ reason r
               ++ " for url: " ++ url r))
  else if (500 <=? n) && (n <? 600) then
    Raises (Exn RequestException
              (status_text n ++ " Server Error: " ++ reason r
               ++ " for url: " ++ url r))
  else Returns tt.

Definition query_hardcover_graphql (w : world) (similar_title : pyval)
  : M pyval :=
  try_except
    (response <- call (CatalogCall similar_title)
                      (requests_post w similar_title) ;;
     lift (raise_for_status response) ;;;
     data <- lift (json response) ;;
     has_errors <- lift (contains "errors" data) ;;
     if has_errors then
       errors <- lift (getitem data "errors") ;;
       ret (error_dict errors)
     else lift (get data "data" (PyDict [])))
    is_RequestException
    (fun e => ret (error_dict (PyStr (str_e e)))).

(** *** [process_image] (lines 175-228) *)

(** An uploaded file of the multipart form. *)
Record file_storage : Type := FileStorage {
  filename : string;
  stream : list byte
}.

(** [request.files], a multi-dict: a field name may occur more than once and
    indexing takes its first file. *)
Record request : Type := Request { files : list (string * file_storage) }.

Fixpoint files_get (k : string) (fs : list (string * file_storage))
  : option file_storage :=
  match fs with
  | [] => None
  | (k', f) :: fs' => if (k =? k')%string then Some f else files_get k fs'
  end.

(** The pair [(body, status)] the view returns; [body] is the object handed
    to [jsonify]. *)
Definition view_result : Type := pyval * Z.

Definition response_record (title author hardcover_books : pyval) : pyval :=
  PyDict [("extracted_title", title);
          ("extracted_author", author);
          ("hardcover_books", hardcover_books)].

Definition success_payload (extracted_text : string) (all_books_info : list pyval)
  : pyval :=
  PyDict [("extracted_text", PyStr extracted_text);
          ("books_info", PyList all_books_info)].

(** The loop [for book in cleaned_books] (lines 202-223) over the elements
    still to visit: [inl] is the result of a [return] inside the loop, [inr]
    is [all_books_info] when the loop runs to its end. *)
Fixpoint enrich_each (w : world) (books : list pyval) (all_books_info : list pyval)
  : M (view_result + list pyval) :=
  match books with
  | [] => ret (inr all_books_info)
  | book :: rest =>
      title <- lift (get book "title" (PyStr "")) ;;
      author <- lift (get book "author" (PyStr "")) ;;
      if negb (truthy title) then enrich_each w rest all_books_info
      else
        graphql_response <- query_hardcover_graphql w title ;;
        failed <- lift (contains "error" graphql_response) ;;
        if failed then
          detail <- lift (getitem graphql_response "error") ;;
          ret (inl (error_dict detail, 500))
        else
          hardcover_books <- lift (get graphql_response "books" (PyList [])) ;;
          enrich_each w rest
            (all_books_info ++ [response_record title author hardcover_books])
  end.

(** Lines 196-228: the test for the normaliser's error, the loop, and the
    success payload. *)
Definition check_and_enrich (w : world) (extracted_text : string)
    (cleaned_books : pyval) : M view_result :=
  failed <- lift (contains "error" cleaned_books) ;;
  if failed then
    detail <- lift (getitem cleaned_books "error") ;;
    ret (error_dict detail, 500)
  else
    books <- lift (iterate cleaned_books) ;;
    looped <- enrich_each w books [] ;;
    match looped with
    | inl returned => ret returned
    | inr all_books_info => ret (success_payload extracted_text all_books_info, 200)
    end.

(** Lines 195-228, once the text is extracted. *)
Definition normalize_and_enrich (w : world) (extracted_text : string)
  : M view_result :=
  cleaned_books <- clean_text_with_openai w extracted_text ;;
  check_and_enrich w extracted_text cleaned_books.

(** [temp_name] is the name [tempfile.NamedTemporaryFile] picks for this
    request. *)
Definition process_image (w : world) (temp_name : string) (rq : request)
  : M view_result :=
  match files_get "file" (files rq) with
  | None => ret (error_dict (PyStr "No file uploaded"), 400)
  | Some file =>
      if (filename file =? "")%string then
        ret (error_dict (PyStr "No selected file"), 400)
      else
        call (SaveUpload temp_name (stream file)) (Returns tt) ;;;
        extracted_text <- ocr_image w temp_name (stream file) ;;
        if negb (truthy (PyStr extracted_text)) then
          ret (error_dict (PyStr "Could not extract text from image"), 500)
        else normalize_and_enrich w extracted_text
  end.

(** What the client receives: the JSON reply the view built; Flask's
    "500 Internal Server Error" page when the view raised an [Exception]; or
    nothing from the application when the view raised anything else, which
    Flask raises again. *)
Inductive reply : Type :=
| JsonReply (status : Z) (body : pyval)
| InternalServerError
| Unanswered (e : exn).

(** What Flask makes of the outcome of a view. *)
Definition respond (o : outcome view_result) : reply :=
  match o with
  | Returns (body, status) => JsonReply status body
  | Raises e => if is_Exception e then InternalServerError else Unanswered e
  end.

Definition serve (w : world) (temp_name : string) (rq : request) : reply :=
  respond (fst (process_image w temp_name rq)).

(** The calls one request makes. *)
Definition calls (w : world) (temp_name : string) (rq : request) : list event :=
  snd (process_image w temp_name rq).

End App.

(** ** The notions the statements are written in *)

Module Spec.
Import Py Run App.

(** *** Extraction *)

(** The recognised-text fields of a well-formed OCR result, in the order of
    detection: line by line, and within a line detection by detection. *)
Definition recognized_texts (lines : list (list word_info)) : list string :=
  flat_map (map (fun w : word_info => fst (snd w))) lines.

(** The extracted text in the words of the specification: the text fields
    joined by single spaces, then trimmed. *)
Definition joined_and_trimmed (lines : list (list word_info)) : string :=
  strip (String.concat " " (recognized_texts lines)).

(** What the loops of [ocr_image] append to [text]: every field followed by
    one space. *)
Fixpoint spaced (texts : list string) : string :=
  match texts with
  | [] => ""
  | t :: rest => (t ++ " " ++ spaced rest)%string
  end.

(** *** Normalisation *)

(** The world in which the thread of every run holds exactly [msgs]. *)
Definition with_thread (w : world) (msgs : list message) : world :=
  World (ocr w) (fun _ => Returns msgs) (json_loads w) (requests_post w).

Definition not_assistant (m : message) : Prop := role m <> "assistant".

(** The text of the first text part of a message, the one the loop of lines
    116-122 stops at. *)
Fixpoint first_text (parts : list content_part) : option string :=
  match parts with
  | [] => None
  | TextPart value :: _ => Some value
  | _ :: rest => first_text rest
  end.

(** A book entry in the words of the specification: an object with a string
    title and, when it has an author, a string author. *)
Definition is_book_entry (v : pyval) : bool :=
  match v with
  | PyDict entries =>
      match lookup "title" entries with
      | Some (PyStr _) =>
          match lookup "author" entries with
          | Some (PyStr _) | None => true
          | Some _ => false
          end
      | _ => false
      end
  | _ => false
  end.

(** A document has a ["books"] key when it is an object binding it. *)
Definition has_books_key (doc : pyval) : bool :=
  match doc with
  | PyDict entries =>
      match lookup "books" entries with Some _ => true | None => false end
  | _ => false
  end.

(** The normaliser as the specification words it: decoding fails with the
    JSON error, a decoded document without ["books"] fails with the schema
    error, and otherwise the answer is the ["books"] value, a list of book
    entries. *)
Definition validates_book_entries (w : world) (text : string) : Prop :=
  forall msgs m value,
    assistant w text = Returns msgs ->
    find is_assistant msgs = Some m ->
    first_text (content m) = Some value ->
    match json_loads w value with
    | Raises _ =>
        fst (clean_text_with_openai w text)
        = Returns (PyDict [("error",
                            PyStr "Failed to decode JSON from assistant response")])
    | Returns doc =>
        if has_books_key doc then
          exists books,
            getitem doc "books" = Returns (PyList books)
            /\ forallb is_book_entry books = true
            /\ fst (clean_text_with_openai w text) = Returns (PyList books)
        else
          fst (clean_text_with_openai w text)
          = Returns (PyDict [("error", PyStr "Invalid response schema")])
    end.

(** A document in which ["books"] does not occur, as the test of line 125
    sees it: a falsy document, an object without that key, a list without
    that element, a string without that substring. *)
Definition lacks_books (doc : pyval) : bool :=
  negb (truthy doc)
  || match doc with
     | PyDict entries =>
         match lookup "books" entries with Some _ => false | None => true end
     | PyList items => negb (existsb (eq_str "books") items)
     | PyStr s => negb (substring_of "books" s)
     | _ => false
     end.

(** *** Catalog lookups *)

(** The ways a lookup fails, each with the detail the caller is given:
    [requests.post] raises, the status makes [raise_for_status] raise, the
    body cannot be decoded, or the decoded object has an ["errors"] key. *)
Inductive lookup_failure (w : world) (title : pyval) : pyval -> Prop :=
| post_raises (e : exn) :
    requests_post w title = Raises e ->
    is_RequestException e = true ->
    lookup_failure w title (PyStr (str_e e))
| status_raises (r : response) (e : exn) :
    requests_post w title = Returns r ->
    raise_for_status r = Raises e ->
    lookup_failure w title (PyStr (str_e e))
| body_raises (r : response) (e : exn) :
    requests_post w title = Returns r ->
    raise_for_status r = Returns tt ->
    json r = Raises e ->
    is_RequestException e = true ->
    lookup_failure w title (PyStr (str_e e))
| graphql_errors (r : response) (entries : list (string * pyval)) (errors : pyval) :
    requests_post w title = Returns r ->
    raise_for_status r = Returns tt ->
    json r = Returns (PyDict entries) ->
    lookup "errors" entries = Some errors ->
    lookup_failure w title errors.

(** A status in the 4xx or 5xx range. *)
Definition is_error_status (n : Z) : bool := (400 <=? n) && (n <? 600).

(** The message of the [HTTPError] that [raise_for_status] raises. *)
Definition http_error_message (r : response) : string :=
  (status_text (status_code r)
   ++ (if (status_code r <? 500)%Z then " Client Error: " else " Server Error: ")
   ++ reason r ++ " for url: " ++ url r)%string.

Definition is_2xx (n : Z) : bool := (200 <=? n) && (n <? 300).

(** The lookup as the specification words it: a transport failure or a
    status outside 2xx gives a transport error carrying a message, a 200 whose
    body has an ["errors"] array gives a query error carrying the array, and a
    2xx without ["errors"] gives the response's data. *)
Definition surfaces_failures_as_specified (w : world) (title : pyval) : Prop :=
  (forall e,
     requests_post w title = Raises e ->
     is_RequestException e = true ->
     fst (query_hardcover_graphql w title)
     = Returns (PyDict [("error", PyStr (str_e e))]))
  /\
  (forall r,
     requests_post w title = Returns r ->
     is_2xx (status_code r) = false ->
     exists message,
       fst (query_hardcover_graphql w title)
       = Returns (PyDict [("error", PyStr message)]))
  /\
  (forall r entries errors,
     requests_post w title = Returns r ->
     status_code r = 200 ->
     json r = Returns (PyDict entries) ->
     lookup "errors" entries = Some (PyList errors) ->
     fst (query_hardcover_graphql w title)
     = Returns (PyDict [("error", PyList errors)]))
  /\
  (forall r entries data,
     requests_post w title = Returns r ->
     is_2xx (status_code r) = true ->
     json r = Returns (PyDict entries) ->
     lookup "errors" entries = None ->
     lookup "data" entries = Some data ->
     fst (query_hardcover_graphql w title) = Returns data).

(** *** Orchestration *)

(** The titles looked up in the catalog, in the order of the calls. *)
Fixpoint catalog_calls (trace : list event) : list pyval :=
  match trace with
  | [] => []
  | CatalogCall title :: rest => title :: catalog_calls rest
  | _ :: rest => catalog_calls rest
  end.

(** What the view returns once the loop has ended. *)
Definition finish (extracted_text : string)
    (looped : outcome (view_result + list pyval)) : outcome view_result :=
  match looped with
  | Raises e => Raises e
  | Returns (inl returned) => Returns returned
  | Returns (inr all_books_info) =>
      Returns (success_payload extracted_text all_books_info, 200)
  end.

(** [book.get(name, '')] for a candidate that is an object. *)
Definition field (name : string) (book : pyval) : pyval :=
  match book with
  | PyDict entries =>
      match lookup name entries with Some v => v | None => PyStr "" end
  | _ => PyStr ""
  end.

(** The candidates the loop looks up: objects whose title is truthy. *)
Definition has_title (book : pyval) : bool :=
  match book with
  | PyDict _ => truthy (field "title" book)
  | _ => false
  end.

(** A candidate whose title is missing or the empty string. *)
Definition untitled (book : pyval) : bool :=
  match book with
  | PyDict entries =>
      match lookup "title" entries with
      | None | Some (PyStr EmptyString) => true
      | Some _ => false
      end
  | _ => false
  end.

(** A candidate with a title that is not the empty string. *)
Definition nonempty_title (book : pyval) : bool :=
  match book with
  | PyDict entries =>
      match lookup "title" entries with
      | None | Some (PyStr EmptyString) => false
      | Some _ => true
      end
  | _ => false
  end.

(** [record] is the ResponseRecord built for [book]. *)
Definition record_of (book record : pyval) : Prop :=
  exists hardcover_books,
    record = PyDict [("extracted_title", field "title" book);
                     ("extracted_author", field "author" book);
                     ("hardcover_books", hardcover_books)].



End Spec.

(** ** Concrete worlds and requests *)

Module Sample.
Import Py Run App.

(** A decoder by table: the documents the examples use, named without the
    quotation marks of JSON, and [JSONDecodeError] for any other text. *)
Definition decode (s : string) : outcome pyval :=
  if (s =? "{books: [Dune]}")%string then
    Returns (PyDict [("books",
                      PyList [PyDict [("title", PyStr "Dune");
                                      ("author", PyStr "Frank Herbert")]])])
  else if (s =? "{books: [untitled]}")%string then
    Returns (PyDict [("books",
                      PyList [PyDict [("title", PyStr ""); ("author", PyStr "X")]])])
  else if (s =? "{books: [untitled, Dune]}")%string then
    Returns (PyDict [("books",
                      PyList [PyDict [("title", PyStr ""); ("author", PyStr "X")];
                              PyDict [("title", PyStr "Dune");
                                      ("author", PyStr "Frank Herbert")]])])
  else if (s =? "{books: [error]}")%string then
    Returns (PyDict [("books", PyList [PyStr "error"])])
  else if (s =? "{books: 7}")%string then Returns (PyDict [("books", PyInt 7)])
  else if (s =? "{shelf: 1}")%string then Returns (PyDict [("shelf", PyInt 1)])
  else if (s =? "7")%string then Returns (PyInt 7)
  else Raises (Exn JSONDecodeError "Expecting value").

Definition dune_hit : pyval :=
  PyDict [("title", PyStr "Dune"); ("pages", PyInt 612)].

(** OCR reads one line of three words, the assistant answers with the text
    part [reply], the catalog answers [catalog]. *)
Definition stub (reply : string) (catalog : pyval -> outcome response) : world :=
  World
    (fun _ _ =>
       Returns [Some [([], ("Dune", 0.5%float)); ([], ("Frank", 0.5%float));
                      ([], ("Herbert ", 0.25%float))]])
    (fun text =>
       Returns [Message "assistant" [ImageFilePart; TextPart reply];
                Message "user" [TextPart text]])
    decode
    catalog.

Definition endpoint : string := "https://api.hardcover.app/v1/graphql".

Definition catalog_ok (_ : pyval) : outcome response :=
  Returns (Response 200 "OK" endpoint
             (Returns (PyDict [("data", PyDict [("books", PyList [dune_hit])])]))).

(** The connection is refused. *)
Definition catalog_down (_ : pyval) : outcome response :=
  Raises (Exn RequestException "Connection refused").

(** The catalog is overloaded. *)
Definition catalog_503 (_ : pyval) : outcome response :=
  Returns (Response 503 "Service Unavailable" endpoint
             (Raises (Exn RequestException "Expecting value"))).

(** The catalog rejects the query. *)
Definition catalog_errors (_ : pyval) : outcome response :=
  Returns (Response 200 "OK" endpoint
             (Returns (PyDict [("errors",
                                PyList [PyDict [("message", PyStr "no such field")]])]))).

(** The catalog answers 300 with a document all the same. *)
Definition catalog_300 (_ : pyval) : outcome response :=
  Returns (Response 300 "Multiple Choices" endpoint
             (Returns (PyDict [("data", PyDict [("books", PyList [])])]))).

(** The OCR engine cannot read the file and says so, naming it. *)
Definition unreadable (reply : string) (catalog : pyval -> outcome response)
  : world :=
  World
    (fun path _ =>
       Raises (Exn OtherException ("cannot identify image file " ++ path)))
    (assistant (stub reply catalog))
    decode
    catalog.

Definition upload : request :=
  Request [("file", FileStorage "shelf.jpg" [x89; x50; x4e; x47])].

End Sample.

(** ** Start-up checks (lines 18-26) *)

Module Startup.
Import Py.

(** [os.getenv(name)]: the value of the variable, or [None]. *)
Definition getenv (environ : string -> option string) (name : string) : pyval :=
  match environ name with
  | Some value => PyStr value
  | None => PyNone
  end.

(** The two credentials are read and checked when the module is loaded;
    [environ] is the environment after [load_dotenv()].  [ValueError] is one
    of the exceptions no [except] clause of the module names. *)
Definition validate (environ : string -> option string) : outcome (pyval * pyval) :=
  let HARDCOVER_BEARER_TOKEN := getenv environ "HARDCOVER_BEARER_TOKEN" in
  let OPENAI_API_KEY := getenv environ "OPENAI_API_KEY" in
  if negb (truthy HARDCOVER_BEARER_TOKEN) then
    Raises (Exn OtherException
              "HARDCOVER_BEARER_TOKEN is not set in the environment variables.")
  else if negb (truthy OPENAI_API_KEY) then
    Raises (Exn OtherException
              "OPENAI_API_KEY is not set in the environment variables.")
  else Returns (HARDCOVER_BEARER_TOKEN, OPENAI_API_KEY).

End Startup.

(** ** Further notions *)

Module Notions.
Import Py Run App Spec.

(** A string of whitespace only, the empty string included. *)
Fixpoint blank (s : string) : bool :=
  match s with
  | EmptyString => true
  | String c rest => is_space c && blank rest
  end.

Definition is_object (v : pyval) : bool :=
  match v with
  | PyDict _ => true
  | _ => false
  end.

(** [answer.get('books', [])] for an answer that is an object. *)
Definition books_of (answer : pyval) : pyval :=
  match answer with
  | PyDict entries =>
      match lookup "books" entries with Some found => found | None => PyList [] end
  | _ => PyList []
  end.

(** The record of a candidate: its title and author, and the books of the
    catalog's answer for its title. *)
Definition record_for (w : world) (book : pyval) : pyval :=
  PyDict [("extracted_title", field "title" book);
          ("extracted_author", field "author" book);
          ("hardcover_books",
           match fst (query_hardcover_graphql w (field "title" book)) with
           | Returns answer => books_of answer
           | Raises _ => PyList []
           end)].

(** The titles of the candidates the loop looks up, in order. *)
Definition titles_looked_up (candidates : list pyval) : list pyval :=
  map (field "title") (filter has_title candidates).

(** How far a request gets, with what it returns and the calls it has made:
    refused at the upload checks; ended by an exception the OCR wrapper lets
    through; refused for want of text; ended after the assistant's answer by
    an exception or by an error reply; or run through the loop. *)
Inductive run_shape (w : world) (temp_name : string) (rq : request) : Prop :=
| shape_refused (detail : pyval) :
    process_image w temp_name rq = (Returns (error_dict detail, 400), []) ->
    run_shape w temp_name rq
| shape_ocr_escaped (file : file_storage) (e : exn) :
    files_get "file" (files rq) = Some file ->
    process_image w temp_name rq
    = (Raises e, [SaveUpload temp_name (stream file); OcrCall temp_name]) ->
    run_shape w temp_name rq
| shape_no_text (file : file_storage) :
    files_get "file" (files rq) = Some file ->
    fst (ocr_image w temp_name (stream file)) = Returns "" ->
    process_image w temp_name rq
    = (Returns (error_dict (PyStr "Could not extract text from image"), 500),
       [SaveUpload temp_name (stream file); OcrCall temp_name]) ->
    run_shape w temp_name rq
| shape_raised (file : file_storage) (text : string) (e : exn) :
    files_get "file" (files rq) = Some file ->
    fst (ocr_image w temp_name (stream file)) = Returns text ->
    text <> "" ->
    process_image w temp_name rq
    = (Raises e, [SaveUpload temp_name (stream file); OcrCall temp_name;
                  AssistantCall text]) ->
    run_shape w temp_name rq
| shape_error_reply (file : file_storage) (text : string) (detail : pyval) :
    files_get "file" (files rq) = Some file ->
    fst (ocr_image w temp_name (stream file)) = Returns text ->
    text <> "" ->
    process_image w temp_name rq
    = (Returns (error_dict detail, 500),
       [SaveUpload temp_name (stream file); OcrCall temp_name;
        AssistantCall text]) ->
    run_shape w temp_name rq
| shape_looped (file : file_storage) (text : string) (cleaned : pyval)
    (books : list pyval) :
    files_get "file" (files rq) = Some file ->
    fst (ocr_image w temp_name (stream file)) = Returns text ->
    text <> "" ->
    fst (clean_text_with_openai w text) = Returns cleaned ->
    contains "error" cleaned = Returns false ->
    iterate cleaned = Returns books ->
    process_image w temp_name rq
    = (finish text (fst (enrich_each w books [])),
       SaveUpload temp_name (stream file) :: OcrCall temp_name
         :: AssistantCall text :: snd (enrich_each w books [])) ->
    run_shape w temp_name rq.

End Notions.

(** ** Further worlds *)

Module Cases.
Import Py Run App.

(** The world whose OCR engine answers [seen] for every file, whose thread
    always holds [thread], whose decoder answers [document] for every text,
    and whose catalog is [catalog]. *)
Definition fixed (seen : outcome ocr_result) (thread : outcome (list message))
    (document : outcome pyval) (catalog : pyval -> outcome response) : world :=
  World (fun _ _ => seen) (fun _ => thread) (fun _ => document) catalog.

(** One line reading "Dune". *)
Definition reads_dune : outcome ocr_result :=
  Returns [Some [([], ("Dune", 0.5%float))]].

(** The assistant's message, one text part. *)
Definition answered : outcome (list message) :=
  Returns [Message "assistant" [TextPart "json"]].

(** The document [{"books": [{"title": "Dune"}]}]. *)
Definition dune_books : outcome pyval :=
  Returns (PyDict [("books", PyList [PyDict [("title", PyStr "Dune")]])]).

(** A catalog whose body decodes to [body], with status 200. *)
Definition catalog_says (body : pyval) (_ : pyval) : outcome response :=
  Returns (Response 200 "OK" Sample.endpoint (Returns body)).



End Cases.

(** ** The upload checks *)

Module Upload.
Import Py Run App.

(** C5. A form without a [file] field is answered 400 "No file uploaded", a
    [file] field with an empty filename 400 "No selected file", and in both
    cases the request makes no call at all: nothing is saved, and neither
    the OCR engine, the assistant nor the catalog is contacted. *)
Theorem upload_rejected_before_any_call (w : world) (temp_name : string)
    (rq : request) :
  (files_get "file" (files rq) = None ->
   serve w temp_name rq = JsonReply 400 (PyDict [("error", PyStr "No file uploaded")])
   /\ calls w temp_name rq = [])
  /\
  (forall file,
     files_get "file" (files rq) = Some file ->
     filename file = "" ->
     serve w temp_name rq = JsonReply 400 (PyDict [("error", PyStr "No selected file")])
     /\ calls w temp_name rq = []).
Proof.
  unfold serve, calls, process_image.
  split.
  - intros ->. split; reflexivity.
  - intros file -> ->. split; reflexivity.
Qed.

Lemma upload_rejected_before_any_call_witness :
  (serve (Sample.stub "" Sample.catalog_ok) "/tmp/a" (Request [])
   = JsonReply 400 (PyDict [("error", PyStr "No file uploaded")])
   /\ calls (Sample.stub "" Sample.catalog_ok) "/tmp/a" (Request []) = [])
  /\
  (serve (Sample.stub "" Sample.catalog_ok) "/tmp/a"
         (Request [("file", FileStorage "" [])])
   = JsonReply 400 (PyDict [("error", PyStr "No selected file")])
   /\ calls (Sample.stub "" Sample.catalog_ok) "/tmp/a"
            (Request [("file", FileStorage "" [])]) = []).
Proof.
  split.
  - apply (proj1 (upload_rejected_before_any_call
                    (Sample.stub "" Sample.catalog_ok) "/tmp/a" (Request []))).
    reflexivity.
  - apply (proj2 (upload_rejected_before_any_call
                    (Sample.stub "" Sample.catalog_ok) "/tmp/a"
                    (Request [("file", FileStorage "" [])]))
             (FileStorage "" [])); reflexivity.
Defined.

End Upload.

(** ** Text extraction *)

Module Extract.
Import Py Run App Spec.

Lemma append_assoc (a b c : string) : ((a ++ b) ++ c = a ++ (b ++ c))%string.
Proof. induction a as [|x a IH]; simpl; [reflexivity | now rewrite IH]. Qed.

Lemma append_empty_r (a : string) : (a ++ "")%string = a.
Proof. induction a as [|x a IH]; simpl; [reflexivity | now rewrite IH]. Qed.

Lemma spaced_app (xs ys : list string) :
  spaced (xs ++ ys) = (spaced xs ++ spaced ys)%string.
Proof.
  induction xs as [|x xs IH]; simpl; [reflexivity|].
  now rewrite IH, !append_assoc.
Qed.

Lemma fold_add_word (words : list word_info) (text : string) :
  fold_left add_word words text
  = (text ++ spaced (map (fun w : word_info => fst (snd w)) words))%string.
Proof.
  revert text; induction words as [|w words IH]; intros text; simpl.
  - now rewrite append_empty_r.
  - rewrite IH. unfold add_word. now rewrite !append_assoc.
Qed.

Lemma scan_lines_well_formed (lines : list (list word_info)) (text : string) :
  scan_lines text (map Some lines)
  = Returns (text ++ spaced (recognized_texts lines))%string.
Proof.
  revert text; induction lines as [|l lines IH]; intros text; simpl.
  - now rewrite append_empty_r.
  - rewrite IH, fold_add_word. unfold recognized_texts; simpl.
    fold (recognized_texts lines).
    now rewrite spaced_app, append_assoc.
Qed.

(** The loop leaves one space more than a join does: after the last field. *)
Lemma spaced_is_join (texts : list string) :
  texts <> [] -> spaced texts = (String.concat " " texts ++ " ")%string.
Proof.
  induction texts as [|t rest IH]; [congruence|]. intros _.
  destruct rest as [|t' rest'].
  - reflexivity.
  - change (spaced (t :: t' :: rest'))
      with (t ++ " " ++ spaced (t' :: rest'))%string.
    rewrite IH by discriminate.
    change (String.concat " " (t :: t' :: rest'))
      with (t ++ " " ++ String.concat " " (t' :: rest'))%string.
    now rewrite !append_assoc.
Qed.

Lemma rstrip_trailing_space (s : string) : rstrip (s ++ " ") = rstrip s.
Proof.
  induction s as [|c s IH]; simpl; [reflexivity | now rewrite IH].
Qed.

Lemma strip_trailing_space (s : string) : strip (s ++ " ") = strip s.
Proof. unfold strip. now rewrite rstrip_trailing_space. Qed.

Lemma strip_spaced (texts : list string) :
  strip (spaced texts) = strip (String.concat " " texts).
Proof.
  destruct texts as [|t rest]; [reflexivity|].
  rewrite spaced_is_join by discriminate. apply strip_trailing_space.
Qed.

(** C8. On a well-formed OCR result (every line a list of detections)
    [ocr_image] returns the recognised-text fields, in detection order, joined
    by single spaces and stripped of surrounding whitespace; boxes and
    confidences have no influence on the text. *)
Theorem ocr_image_joins_and_trims (w : world) (image_path : string)
    (data : list byte) (lines : list (list word_info)) :
  ocr w image_path data = Returns (map Some lines) ->
  ocr_image w image_path data
  = (Returns (joined_and_trimmed lines), [OcrCall image_path]).
Proof.
  intros Hocr. unfold ocr_image, joined_and_trimmed, try_except, bind, call, lift.
  rewrite Hocr, scan_lines_well_formed. simpl.
  now rewrite strip_spaced.
Qed.

Lemma ocr_image_joins_and_trims_witness :
  ocr_image (Sample.stub "" Sample.catalog_ok) "/tmp/a" []
  = (Returns "Dune Frank Herbert", [OcrCall "/tmp/a"]).
Proof.
  apply (ocr_image_joins_and_trims (Sample.stub "" Sample.catalog_ok) "/tmp/a" []
           [[([], ("Dune", 0.5%float)); ([], ("Frank", 0.5%float));
             ([], ("Herbert ", 0.25%float))]]).
  reflexivity.
Defined.

End Extract.

(** ** How a request runs through the stages *)

Module Stages.
Import Py Run App.

Lemma bind_returns {A B} (a : A) (t : list event) (f : A -> M B) :
  bind (Returns a, t) f = (fst (f a), t ++ snd (f a)).
Proof. unfold bind. now destruct (f a). Qed.

Lemma bind_raises {A B} (e : exn) (t : list event) (f : A -> M B) :
  bind (Raises e, t) f = (Raises e, t).
Proof. reflexivity. Qed.

Lemma bind_lift_returns {A B} (a : A) (f : A -> M B) :
  bind (lift (Returns a)) f = f a.
Proof. unfold bind, lift. now destruct (f a). Qed.

Lemma bind_lift_raises {A B} (e : exn) (f : A -> M B) :
  bind (lift (Raises e)) f = raise e.
Proof. reflexivity. Qed.

(** The reply is no 200: the view returned another status, or raised. *)
Ltac not_ok :=
  let body := fresh "body" in
  intros body; unfold respond; simpl; try discriminate;
  match goal with
  | |- context [is_Exception ?e] => destruct (is_Exception e); discriminate
  end.

Lemma respond_raises (e : exn) (status : Z) (body : pyval) :
  respond (Raises e) <> JsonReply status body.
Proof. unfold respond. destruct (is_Exception e); discriminate. Qed.

(** The goal when a view that raised is said to have given a JSON reply. *)
Ltac raised :=
  let H := fresh "Hraised" in
  intros H; now apply respond_raises in H.

Lemma truthy_str (s : string) : truthy (PyStr s) = true <-> s <> "".
Proof.
  simpl. destruct (String.eqb_spec s ""); simpl; split; congruence.
Qed.

(** [ocr_image] makes exactly one call, to the OCR engine. *)
Lemma ocr_image_trace (w : world) (path : string) (data : list byte) :
  snd (ocr_image w path data) = [OcrCall path].
Proof.
  unfold ocr_image, try_except, bind, call, lift.
  destruct (ocr w path data) as [e|result]; simpl.
  - now destruct (is_Exception e).
  - destruct (scan_lines "" result) as [e|text]; simpl; [|reflexivity].
    now destruct (is_Exception e).
Qed.

(** [clean_text_with_openai] makes exactly one call, to the assistant. *)
Lemma clean_text_trace (w : world) (text : string) :
  snd (clean_text_with_openai w text) = [AssistantCall text].
Proof.
  unfold clean_text_with_openai, bind, call, lift, ret.
  destruct (assistant w text) as [e|messages]; [reflexivity|].
  destruct (find is_assistant messages) as [m|]; [|reflexivity].
  destruct (first_text_json w (content m)) as [e|[early|doc]];
    [reflexivity | reflexivity |].
  destruct (truthy doc); [|reflexivity].
  destruct (contains "books" doc) as [e|[|]]; reflexivity.
Qed.

(** A request with a named upload whose text is not empty goes on to lines
    195-228 with that text. *)
Lemma process_image_extracted (w : world) (temp_name : string) (rq : request)
    (file : file_storage) (text : string) :
  files_get "file" (files rq) = Some file ->
  filename file <> "" ->
  fst (ocr_image w temp_name (stream file)) = Returns text ->
  text <> "" ->
  process_image w temp_name rq
  = (fst (normalize_and_enrich w text),
     SaveUpload temp_name (stream file) :: OcrCall temp_name
       :: snd (normalize_and_enrich w text)).
Proof.
  intros Hfile Hname Hocr Htext. unfold process_image. rewrite Hfile.
  destruct (String.eqb_spec (filename file) ""); [contradiction|].
  pose proof (ocr_image_trace w temp_name (stream file)) as Htrace.
  destruct (ocr_image w temp_name (stream file)) as [o t]. simpl in Hocr, Htrace.
  subst o t. unfold call. rewrite !bind_returns.
  apply truthy_str in Htext. rewrite Htext. reflexivity.
Qed.

(** The same for the reply the client sees. *)
Lemma serve_extracted (w : world) (temp_name : string) (rq : request)
    (file : file_storage) (text : string) :
  files_get "file" (files rq) = Some file ->
  filename file <> "" ->
  fst (ocr_image w temp_name (stream file)) = Returns text ->
  text <> "" ->
  serve w temp_name rq = respond (fst (normalize_and_enrich w text)).
Proof.
  intros. unfold serve.
  now rewrite (process_image_extracted w temp_name rq file text).
Qed.

(** Lines 196-228 follow once the assistant's answer is known. *)
Lemma normalize_and_enrich_cleaned (w : world) (text : string) (cleaned : pyval) :
  fst (clean_text_with_openai w text) = Returns cleaned ->
  normalize_and_enrich w text
  = (fst (check_and_enrich w text cleaned),
     AssistantCall text :: snd (check_and_enrich w text cleaned)).
Proof.
  intros H. unfold normalize_and_enrich.
  pose proof (clean_text_trace w text) as Ht.
  destruct (clean_text_with_openai w text) as [o t]. simpl in H, Ht.
  subst. now rewrite bind_returns.
Qed.

End Stages.

(** ** Normalisation *)

Module Normalize.
Import Py Run App Spec Stages.

Lemma find_skips_newer (newer older : list message) (m : message) :
  Forall not_assistant newer ->
  role m = "assistant" ->
  find is_assistant (newer ++ m :: older) = Some m.
Proof.
  intros Hnewer Hm. induction Hnewer as [|x newer Hx _ IH]; simpl.
  - unfold is_assistant. now rewrite Hm.
  - unfold is_assistant at 1.
    destruct (String.eqb_spec (role x) "assistant"); [contradiction | exact IH].
Qed.

Lemma find_none_of_theirs (msgs : list message) :
  Forall not_assistant msgs -> find is_assistant msgs = None.
Proof.
  induction 1 as [|x msgs Hx _ IH]; simpl; [reflexivity|].
  unfold is_assistant at 1.
  destruct (String.eqb_spec (role x) "assistant"); [contradiction | exact IH].
Qed.

Lemma first_text_json_with_thread (w : world) (msgs : list message)
    (parts : list content_part) :
  first_text_json (with_thread w msgs) parts = first_text_json w parts.
Proof.
  induction parts as [|part parts IH]; simpl; [reflexivity|].
  destruct part; auto.
Qed.

(** *** What the normaliser makes of the assistant's document *)

Lemma first_text_json_spec (w : world) (parts : list content_part)
    (value : string) :
  first_text parts = Some value ->
  first_text_json w parts
  = match json_loads w value with
    | Returns doc => Returns (inr doc)
    | Raises e =>
        if is_JSONDecodeError e then
          Returns (inl (error_dict
                          (PyStr "Failed to decode JSON from assistant response")))
        else Raises e
    end.
Proof.
  induction parts as [|part parts IH]; simpl; [discriminate|].
  destruct part; auto. now intros [= ->].
Qed.

(** Lines 114-128 on the message the scan of the thread stopped at, when it
    has a text part. *)
Lemma clean_text_read (w : world) (text : string) (msgs : list message)
    (m : message) (value : string) :
  assistant w text = Returns msgs ->
  find is_assistant msgs = Some m ->
  first_text (content m) = Some value ->
  fst (clean_text_with_openai w text)
  = match json_loads w value with
    | Raises e =>
        if is_JSONDecodeError e then
          Returns (error_dict
                     (PyStr "Failed to decode JSON from assistant response"))
        else Raises e
    | Returns doc =>
        if truthy doc then
          match contains "books" doc with
          | Raises e => Raises e
          | Returns true => getitem doc "books"
          | Returns false => Returns invalid_schema
          end
        else Returns invalid_schema
    end.
Proof.
  intros Hrun Hfind Hpart.
  unfold clean_text_with_openai, call. rewrite Hrun, bind_returns, Hfind.
  rewrite (first_text_json_spec w _ value Hpart). cbn [fst].
  destruct (json_loads w value) as [e|doc].
  - now destruct (is_JSONDecodeError e).
  - rewrite bind_lift_returns. destruct (truthy doc); [|reflexivity].
    destruct (contains "books" doc) as [e|[|]]; reflexivity.
Qed.

(** An object with a ["books"] key is answered with the value under it. *)
Lemma clean_text_books (w : world) (text : string) (msgs : list message)
    (m : message) (value : string) (entries : list (string * pyval))
    (books : pyval) :
  assistant w text = Returns msgs ->
  find is_assistant msgs = Some m ->
  first_text (content m) = Some value ->
  json_loads w value = Returns (PyDict entries) ->
  lookup "books" entries = Some books ->
  fst (clean_text_with_openai w text) = Returns books.
Proof.
  intros Hrun Hfind Hpart Hdoc Hbooks.
  rewrite (clean_text_read w text msgs m value Hrun Hfind Hpart), Hdoc.
  destruct entries as [|entry entries]; [discriminate Hbooks|].
  cbn [truthy contains getitem]. now rewrite Hbooks.
Qed.

(** C7. After a completed run the normaliser works on the first assistant
    message met when the thread is read newest first, and on no other: its
    answer is the one it would give if the thread held that message alone,
    and when the first text part of that message decodes to an object with a
    ["books"] key the answer is the value under that key, whatever the newer
    and the older messages hold.  When no message of the thread is the
    assistant's, it answers the error "Assistant response not found", and a
    request that got that far is answered 500 with that message. *)
Theorem newest_assistant_message_is_used (w : world) (text : string) :
  (forall newer m older,
     assistant w text = Returns (newer ++ m :: older) ->
     Forall not_assistant newer ->
     role m = "assistant" ->
     find is_assistant (newer ++ m :: older) = Some m
     /\ clean_text_with_openai w text
        = clean_text_with_openai (with_thread w [m]) text
     /\ forall value entries books,
          first_text (content m) = Some value ->
          json_loads w value = Returns (PyDict entries) ->
          lookup "books" entries = Some books ->
          clean_text_with_openai w text = (Returns books, [AssistantCall text]))
  /\
  (forall msgs,
     assistant w text = Returns msgs ->
     Forall not_assistant msgs ->
     fst (clean_text_with_openai w text)
     = Returns (PyDict [("error", PyStr "Assistant response not found")])
     /\
     forall temp_name rq file,
       files_get "file" (files rq) = Some file ->
       filename file <> "" ->
       fst (ocr_image w temp_name (stream file)) = Returns text ->
       text <> "" ->
       serve w temp_name rq
       = JsonReply 500 (PyDict [("error", PyStr "Assistant response not found")])).
Proof.
  split.
  - intros newer m older Hrun Hnewer Hm.
    pose proof (find_skips_newer newer older m Hnewer Hm) as Hfind.
    split; [exact Hfind|]. split.
    + unfold clean_text_with_openai, call. rewrite Hrun. simpl assistant.
      rewrite !bind_returns, Hfind. simpl find.
      assert (His : is_assistant m = true)
        by (unfold is_assistant; now rewrite Hm).
      rewrite His. now rewrite first_text_json_with_thread.
    + intros value entries books Hpart Hdoc Hbooks.
      pose proof (clean_text_books w text _ m value entries books
                    Hrun Hfind Hpart Hdoc Hbooks) as Hfst.
      pose proof (clean_text_trace w text) as Hsnd.
      destruct (clean_text_with_openai w text) as [o t].
      simpl in Hfst, Hsnd. now subst.
  - intros msgs Hrun Hnone.
    assert (Hclean : fst (clean_text_with_openai w text)
                     = Returns (error_dict (PyStr "Assistant response not found"))).
    { unfold clean_text_with_openai, call. rewrite Hrun, bind_returns.
      now rewrite (find_none_of_theirs msgs Hnone). }
    split; [exact Hclean|].
    intros temp_name rq file Hfile Hname Hocr Htext.
    rewrite (serve_extracted w temp_name rq file text Hfile Hname Hocr Htext).
    now rewrite (normalize_and_enrich_cleaned w text _ Hclean).
Qed.

Lemma newest_assistant_message_is_used_witness :
  (let w := with_thread (Sample.stub "" Sample.catalog_ok)
              [Message "user" [TextPart "thanks"];
               Message "assistant" [TextPart "{books: [Dune]}"];
               Message "assistant" [TextPart "{books: 7}"]] in
   clean_text_with_openai w "Dune"
   = clean_text_with_openai
       (with_thread w [Message "assistant" [TextPart "{books: [Dune]}"]]) "Dune")
  /\
  clean_text_with_openai
    (with_thread (Sample.stub "" Sample.catalog_ok)
       [Message "user" [TextPart "thanks"];
        Message "assistant" [TextPart "{books: [Dune]}"];
        Message "assistant" [TextPart "{books: 7}"]]) "Dune"
  = (Returns (PyList [PyDict [("title", PyStr "Dune");
                              ("author", PyStr "Frank Herbert")]]),
     [AssistantCall "Dune"])
  /\
  serve (with_thread (Sample.stub "" Sample.catalog_ok)
           [Message "user" [TextPart "Dune Frank Herbert"]])
        "/tmp/a" Sample.upload
  = JsonReply 500 (PyDict [("error", PyStr "Assistant response not found")]).
Proof.
  split; [|split].
  - apply (proj1 (newest_assistant_message_is_used _ "Dune")
             [Message "user" [TextPart "thanks"]]
             (Message "assistant" [TextPart "{books: [Dune]}"])
             [Message "assistant" [TextPart "{books: 7}"]]).
    + reflexivity.
    + constructor; [discriminate | constructor].
    + reflexivity.
  - assert (Hnewer : Forall not_assistant [Message "user" [TextPart "thanks"]])
      by (constructor; [discriminate | constructor]).
    exact (proj2 (proj2 (proj1 (newest_assistant_message_is_used
                                  (with_thread (Sample.stub "" Sample.catalog_ok)
                                     [Message "user" [TextPart "thanks"];
                                      Message "assistant" [TextPart "{books: [Dune]}"];
                                      Message "assistant" [TextPart "{books: 7}"]])
                                  "Dune")
                           [Message "user" [TextPart "thanks"]]
                           (Message "assistant" [TextPart "{books: [Dune]}"])
                           [Message "assistant" [TextPart "{books: 7}"]]
                           eq_refl Hnewer eq_refl))
             "{books: [Dune]}"
             [("books", PyList [PyDict [("title", PyStr "Dune");
                                        ("author", PyStr "Frank Herbert")]])]
             (PyList [PyDict [("title", PyStr "Dune");
                              ("author", PyStr "Frank Herbert")]])
             eq_refl eq_refl eq_refl).
  - apply (proj2 (newest_assistant_message_is_used
                    (with_thread (Sample.stub "" Sample.catalog_ok)
                       [Message "user" [TextPart "Dune Frank Herbert"]])
                    "Dune Frank Herbert")
             [Message "user" [TextPart "Dune Frank Herbert"]])
      with (file := FileStorage "shelf.jpg" [x89; x50; x4e; x47]).
    + reflexivity.
    + constructor; [discriminate | constructor].
    + reflexivity.
    + discriminate.
    + reflexivity.
    + discriminate.
Defined.

(** C3 as stated fails.  The value under ["books"] is returned whatever it
    is: for the document [{"books": 7}] the normaliser answers [7], which is
    no list of entries. *)
Lemma books_value_is_not_validated :
  ~ validates_book_entries (Sample.stub "{books: 7}" Sample.catalog_ok) "Dune".
Proof.
  intros H.
  specialize (H _ (Message "assistant" [ImageFilePart; TextPart "{books: 7}"])
                "{books: 7}" eq_refl eq_refl eq_refl).
  vm_compute in H. destruct H as (books & Hbooks & _). discriminate Hbooks.
Qed.

(** C3, amended.  The normaliser decodes the first text part of the
    assistant's message.  If [json.loads] raises [JSONDecodeError] it answers
    the error "Failed to decode JSON from assistant response"; any other
    exception of [json.loads] is not caught and comes out of the normaliser.
    If the decoded document is one in which ["books"] does not occur (a falsy
    document, an object without that key, a list without that element, a
    string without that substring) it answers the error "Invalid response
    schema".  If the document is a JSON object with a ["books"] key it
    answers the value under that key as it is, without inspecting it. *)
Theorem normalizer_returns_books_value (w : world) (text : string)
    (msgs : list message) (m : message) (value : string) :
  assistant w text = Returns msgs ->
  find is_assistant msgs = Some m ->
  first_text (content m) = Some value ->
  (forall e,
     json_loads w value = Raises e ->
     is_JSONDecodeError e = true ->
     fst (clean_text_with_openai w text)
     = Returns (PyDict [("error",
                         PyStr "Failed to decode JSON from assistant response")]))
  /\
  (forall e,
     json_loads w value = Raises e ->
     is_JSONDecodeError e = false ->
     fst (clean_text_with_openai w text) = Raises e)
  /\
  (forall doc,
     json_loads w value = Returns doc ->
     lacks_books doc = true ->
     fst (clean_text_with_openai w text)
     = Returns (PyDict [("error", PyStr "Invalid response schema")]))
  /\
  (forall entries books,
     json_loads w value = Returns (PyDict entries) ->
     lookup "books" entries = Some books ->
     fst (clean_text_with_openai w text) = Returns books).
Proof.
  intros Hrun Hfind Hpart.
  pose proof (clean_text_read w text msgs m value Hrun Hfind Hpart) as Hread.
  split; [|split; [|split]].
  - intros e He Hclass. now rewrite Hread, He, Hclass.
  - intros e He Hclass. now rewrite Hread, He, Hclass.
  - intros doc Hdoc Hlacks. rewrite Hread, Hdoc. unfold lacks_books in Hlacks.
    destruct (truthy doc); [|reflexivity]. cbn [negb orb] in Hlacks.
    destruct doc as [|b|z|f|s|items|entries]; try discriminate Hlacks;
      cbn [contains].
    + now destruct (substring_of "books" s).
    + now destruct (existsb (eq_str "books") items).
    + now destruct (lookup "books" entries).
  - intros entries books Hdoc Hbooks.
    exact (clean_text_books w text msgs m value entries books
             Hrun Hfind Hpart Hdoc Hbooks).
Qed.

(** A document that is no object and in which ["books"] is not simply absent
    is outside the theorem above: the number [7] is truthy, and the test
    ["books" in 7] raises. *)
Remark number_document_raises :
  fst (clean_text_with_openai (Sample.stub "7" Sample.catalog_ok) "Dune")
  = Raises (Exn TypeError "argument of type 'int' is not iterable").
Proof. reflexivity. Qed.

Lemma normalizer_returns_books_value_witness :
  fst (clean_text_with_openai (Sample.stub "Dune!" Sample.catalog_ok) "Dune")
  = Returns (PyDict [("error",
                      PyStr "Failed to decode JSON from assistant response")])
  /\
  fst (clean_text_with_openai
         (Cases.fixed Cases.reads_dune Cases.answered
            (Raises (Exn OtherException
                       "Exceeds the limit (4300 digits) for integer string conversion"))
            Sample.catalog_ok) "Dune")
  = Raises (Exn OtherException
              "Exceeds the limit (4300 digits) for integer string conversion")
  /\
  fst (clean_text_with_openai (Sample.stub "{shelf: 1}" Sample.catalog_ok) "Dune")
  = Returns (PyDict [("error", PyStr "Invalid response schema")])
  /\
  fst (clean_text_with_openai
         (Cases.fixed Cases.reads_dune Cases.answered
            (Returns (PyList [PyStr "Dune"; PyStr "Emma"])) Sample.catalog_ok)
         "Dune")
  = Returns (PyDict [("error", PyStr "Invalid response schema")])
  /\
  fst (clean_text_with_openai (Sample.stub "{books: 7}" Sample.catalog_ok) "Dune")
  = Returns (PyInt 7).
Proof.
  split; [|split; [|split; [|split]]].
  - apply (proj1 (normalizer_returns_books_value
                    (Sample.stub "Dune!" Sample.catalog_ok) "Dune"
                    _ (Message "assistant" [ImageFilePart; TextPart "Dune!"])
                    "Dune!" eq_refl eq_refl eq_refl)
             (Exn JSONDecodeError "Expecting value")); reflexivity.
  - apply (proj1 (proj2 (normalizer_returns_books_value
                           (Cases.fixed Cases.reads_dune Cases.answered
                              (Raises (Exn OtherException
                                 "Exceeds the limit (4300 digits) for integer string conversion"))
                              Sample.catalog_ok) "Dune"
                           _ (Message "assistant" [TextPart "json"])
                           "json" eq_refl eq_refl eq_refl))); reflexivity.
  - apply (proj1 (proj2 (proj2 (normalizer_returns_books_value
                                  (Sample.stub "{shelf: 1}" Sample.catalog_ok) "Dune"
                                  _ (Message "assistant"
                                       [ImageFilePart; TextPart "{shelf: 1}"])
                                  "{shelf: 1}" eq_refl eq_refl eq_refl)))
             (PyDict [("shelf", PyInt 1)])); reflexivity.
  - apply (proj1 (proj2 (proj2 (normalizer_returns_books_value
                                  (Cases.fixed Cases.reads_dune Cases.answered
                                     (Returns (PyList [PyStr "Dune"; PyStr "Emma"]))
                                     Sample.catalog_ok) "Dune"
                                  _ (Message "assistant" [TextPart "json"])
                                  "json" eq_refl eq_refl eq_refl)))
             (PyList [PyStr "Dune"; PyStr "Emma"])); reflexivity.
  - apply (proj2 (proj2 (proj2 (normalizer_returns_books_value
                                  (Sample.stub "{books: 7}" Sample.catalog_ok) "Dune"
                                  _ (Message "assistant"
                                       [ImageFilePart; TextPart "{books: 7}"])
                                  "{books: 7}" eq_refl eq_refl eq_refl)))
             [("books", PyInt 7)] (PyInt 7)); reflexivity.
Defined.

End Normalize.

(** ** Catalog lookups *)

Module Catalog.
Import Py Run App Spec Stages.

Lemma raise_for_status_error (r : response) :
  is_error_status (status_code r) = true ->
  raise_for_status r = Raises (Exn RequestException (http_error_message r)).
Proof.
  unfold is_error_status, raise_for_status, http_error_message. intros H.
  destruct (Z.leb_spec 400 (status_code r)), (Z.ltb_spec (status_code r) 500),
    (Z.leb_spec 500 (status_code r)), (Z.ltb_spec (status_code r) 600);
    simpl in *; try reflexivity; try discriminate; lia.
Qed.

Lemma raise_for_status_passes (r : response) :
  is_error_status (status_code r) = false ->
  raise_for_status r = Returns tt.
Proof.
  unfold is_error_status, raise_for_status. intros H.
  destruct (Z.leb_spec 400 (status_code r)), (Z.ltb_spec (status_code r) 500),
    (Z.leb_spec 500 (status_code r)), (Z.ltb_spec (status_code r) 600);
    simpl in *; try reflexivity; try discriminate; lia.
Qed.

Lemma raise_for_status_class (r : response) (e : exn) :
  raise_for_status r = Raises e -> is_RequestException e = true.
Proof.
  unfold raise_for_status.
  destruct ((400 <=? status_code r) && (status_code r <? 500));
    [now intros [= <-]|].
  destruct ((500 <=? status_code r) && (status_code r <? 600));
    [now intros [= <-] | discriminate].
Qed.

(** The goal once an exception [e] has reached the [except] clause of the
    lookup: caught or not, the trace is the one call. *)
Ltac reached_except e :=
  rewrite ?bind_lift_raises, ?bind_raises; simpl;
  now destruct (is_RequestException e).

(** A lookup makes exactly one call, whatever comes of it. *)
Lemma query_trace (w : world) (title : pyval) :
  snd (query_hardcover_graphql w title) = [CatalogCall title].
Proof.
  unfold query_hardcover_graphql, try_except, call.
  destruct (requests_post w title) as [e|r]; [reached_except e|].
  rewrite bind_returns.
  destruct (raise_for_status r) as [e|[]]; [reached_except e|].
  rewrite bind_lift_returns.
  destruct (json r) as [e|data]; [reached_except e|].
  rewrite bind_lift_returns.
  destruct (contains "errors" data) as [e|[|]]; [reached_except e | |];
    rewrite bind_lift_returns.
  - destruct (getitem data "errors") as [e|errors]; [reached_except e|].
    now rewrite bind_lift_returns.
  - destruct (get data "data" (PyDict [])) as [e|found];
      [reached_except e | reflexivity].
Qed.

(** Every failure is handed to the caller as [{"error": detail}]. *)
Lemma lookup_failure_result (w : world) (title detail : pyval) :
  lookup_failure w title detail ->
  query_hardcover_graphql w title
  = (Returns (error_dict detail), [CatalogCall title]).
Proof.
  intros H; unfold query_hardcover_graphql, try_except, call.
  destruct H as [e Hpost He | r e Hpost Hstatus | r e Hpost Hstatus Hjson He
                | r entries errors Hpost Hstatus Hjson Herrors];
    rewrite Hpost.
  - rewrite bind_raises, He. reflexivity.
  - rewrite bind_returns, Hstatus, bind_lift_raises. simpl.
    rewrite (raise_for_status_class r e Hstatus). reflexivity.
  - rewrite bind_returns, Hstatus, bind_lift_returns, Hjson, bind_lift_raises.
    simpl. rewrite He. reflexivity.
  - rewrite bind_returns, Hstatus, bind_lift_returns, Hjson, bind_lift_returns.
    cbn [contains getitem]. rewrite Herrors, !bind_lift_returns. reflexivity.
Qed.

(** An object without ["errors"] is answered with its ["data"], or with the
    empty object when it has none. *)
Lemma lookup_success_result (w : world) (title : pyval) (r : response)
    (entries : list (string * pyval)) :
  requests_post w title = Returns r ->
  raise_for_status r = Returns tt ->
  json r = Returns (PyDict entries) ->
  lookup "errors" entries = None ->
  query_hardcover_graphql w title
  = (Returns (match lookup "data" entries with
              | Some data => data
              | None => PyDict []
              end), [CatalogCall title]).
Proof.
  intros Hpost Hstatus Hjson Herrors.
  unfold query_hardcover_graphql, try_except, call.
  rewrite Hpost, bind_returns, Hstatus, bind_lift_returns, Hjson,
    bind_lift_returns.
  cbn [contains get]. rewrite Herrors, bind_lift_returns. reflexivity.
Qed.

(** C6 as stated fails.  [raise_for_status] lets a 3xx status through: a 300
    answer with a document is a successful lookup. *)
Lemma status_300_is_not_a_failure :
  ~ surfaces_failures_as_specified
      (Sample.stub "{books: [Dune]}" Sample.catalog_300) (PyStr "Dune").
Proof.
  intros (_ & H & _).
  destruct (H _ eq_refl eq_refl) as [message Hmessage].
  vm_compute in Hmessage. discriminate Hmessage.
Qed.

(** C6, amended.  A lookup whose [requests.post] raises a request exception,
    or whose response has a 4xx or 5xx status, answers [{"error": message}]
    with the exception's message, a string.  A response with any other status
    whose body is a JSON object with an ["errors"] key answers
    [{"error": errors}] with the value under that key.  A response with any
    other status whose body is a JSON object without ["errors"] answers the
    value under ["data"], or the empty object when there is none.  A message
    and an errors array never give the same answer. *)
Theorem lookup_failures_are_told_apart (w : world) (title : pyval) :
  (forall e,
     requests_post w title = Raises e ->
     is_RequestException e = true ->
     fst (query_hardcover_graphql w title)
     = Returns (PyDict [("error", PyStr (str_e e))]))
  /\
  (forall r,
     requests_post w title = Returns r ->
     is_error_status (status_code r) = true ->
     fst (query_hardcover_graphql w title)
     = Returns (PyDict [("error", PyStr (http_error_message r))]))
  /\
  (forall r entries errors,
     requests_post w title = Returns r ->
     is_error_status (status_code r) = false ->
     json r = Returns (PyDict entries) ->
     lookup "errors" entries = Some errors ->
     fst (query_hardcover_graphql w title)
     = Returns (PyDict [("error", errors)]))
  /\
  (forall r entries,
     requests_post w title = Returns r ->
     is_error_status (status_code r) = false ->
     json r = Returns (PyDict entries) ->
     lookup "errors" entries = None ->
     fst (query_hardcover_graphql w title)
     = Returns (match lookup "data" entries with
                | Some data => data
                | None => PyDict []
                end))
  /\
  (forall message errors,
     PyDict [("error", PyStr message)] <> PyDict [("error", PyList errors)]).
Proof.
  split; [|split; [|split; [|split]]].
  - intros e Hpost He.
    now rewrite (lookup_failure_result w title _ (post_raises w title e Hpost He)).
  - intros r Hpost Hstatus. apply raise_for_status_error in Hstatus.
    now rewrite (lookup_failure_result w title _
                   (status_raises w title r _ Hpost Hstatus)).
  - intros r entries errors Hpost Hstatus Hjson Herrors.
    apply raise_for_status_passes in Hstatus.
    now rewrite (lookup_failure_result w title _
                   (graphql_errors w title r entries errors
                      Hpost Hstatus Hjson Herrors)).
  - intros r entries Hpost Hstatus Hjson Herrors.
    apply raise_for_status_passes in Hstatus.
    now rewrite (lookup_success_result w title r entries
                   Hpost Hstatus Hjson Herrors).
  - discriminate.
Qed.

Lemma lookup_failures_are_told_apart_witness :
  fst (query_hardcover_graphql (Sample.stub "" Sample.catalog_down) (PyStr "Dune"))
  = Returns (PyDict [("error", PyStr "Connection refused")])
  /\
  fst (query_hardcover_graphql (Sample.stub "" Sample.catalog_503) (PyStr "Dune"))
  = Returns (PyDict [("error",
       PyStr "503 Server Error: Service Unavailable for url: https://api.hardcover.app/v1/graphql")])
  /\
  fst (query_hardcover_graphql (Sample.stub "" Sample.catalog_errors) (PyStr "Dune"))
  = Returns (PyDict [("error",
                      PyList [PyDict [("message", PyStr "no such field")]])])
  /\
  fst (query_hardcover_graphql (Sample.stub "" Sample.catalog_ok) (PyStr "Dune"))
  = Returns (PyDict [("books", PyList [Sample.dune_hit])]).
Proof.
  split; [|split; [|split]].
  - apply (proj1 (lookup_failures_are_told_apart
                    (Sample.stub "" Sample.catalog_down) (PyStr "Dune"))
             (Exn RequestException "Connection refused")); reflexivity.
  - apply (proj1 (proj2 (lookup_failures_are_told_apart
                           (Sample.stub "" Sample.catalog_503) (PyStr "Dune")))
             (Response 503 "Service Unavailable" Sample.endpoint
                (Raises (Exn RequestException "Expecting value"))));
      reflexivity.
  - apply (proj1 (proj2 (proj2 (lookup_failures_are_told_apart
                                  (Sample.stub "" Sample.catalog_errors)
                                  (PyStr "Dune"))))
             (Response 200 "OK" Sample.endpoint
                (Returns (PyDict [("errors",
                   PyList [PyDict [("message", PyStr "no such field")]])])))
             [("errors", PyList [PyDict [("message", PyStr "no such field")]])]);
      reflexivity.
  - apply (proj1 (proj2 (proj2 (proj2 (lookup_failures_are_told_apart
                                         (Sample.stub "" Sample.catalog_ok)
                                         (PyStr "Dune")))))
             (Response 200 "OK" Sample.endpoint
                (Returns (PyDict [("data",
                   PyDict [("books", PyList [Sample.dune_hit])])])))
             [("data", PyDict [("books", PyList [Sample.dune_hit])])]);
      reflexivity.
Defined.

End Catalog.

(** ** The orchestrator *)

Module Orchestrate.
Import Py Run App Spec Stages Catalog.

Lemma catalog_calls_app (t1 t2 : list event) :
  catalog_calls (t1 ++ t2) = catalog_calls t1 ++ catalog_calls t2.
Proof.
  induction t1 as [|ev t1 IH]; simpl; [reflexivity|].
  destruct ev; simpl; now rewrite IH.
Qed.

Lemma fst_bind {A B} (m : M A) (f : A -> M B) :
  fst (bind m f)
  = match fst m with
    | Raises e => Raises e
    | Returns a => fst (f a)
    end.
Proof. destruct m as [[e|a] t]; simpl; [reflexivity | now destruct (f a)]. Qed.

Lemma snd_bind {A B} (m : M A) (f : A -> M B) :
  snd (bind m f)
  = match fst m with
    | Raises _ => snd m
    | Returns a => snd m ++ snd (f a)
    end.
Proof. destruct m as [[e|a] t]; simpl; [reflexivity | now destruct (f a)]. Qed.

(** An untitled candidate costs nothing and changes nothing. *)
Lemma enrich_each_skips (w : world) (book : pyval) (rest acc : list pyval) :
  untitled book = true ->
  enrich_each w (book :: rest) acc = enrich_each w rest acc.
Proof.
  intros H. destruct book as [| | | | |?|entries]; try discriminate.
  cbn [enrich_each get]. rewrite !bind_lift_returns.
  unfold untitled in H.
  destruct (lookup "title" entries) as [[| | | |[|c s]| |]|];
    try discriminate; reflexivity.
Qed.

(** The first lookup the loop attempts, when it fails, ends the loop: the
    view returns 500 with the detail, after that single call. *)
Lemma enrich_first_failure (w : world) (title detail : pyval) :
  lookup_failure w title detail ->
  forall books acc,
    hd_error (catalog_calls (snd (enrich_each w books acc))) = Some title ->
    enrich_each w books acc
    = (Returns (inl (error_dict detail, 500)), [CatalogCall title]).
Proof.
  intros Hfail. induction books as [|book rest IH]; intros acc Hhd.
  - discriminate Hhd.
  - cbn [enrich_each] in *.
    destruct (get book "title" (PyStr "")) as [e|t];
      [rewrite bind_lift_raises in Hhd; discriminate Hhd|].
    rewrite bind_lift_returns in *.
    destruct (get book "author" (PyStr "")) as [e|a];
      [rewrite bind_lift_raises in Hhd; discriminate Hhd|].
    rewrite bind_lift_returns in *.
    destruct (truthy t); cbn [negb] in *; [|now apply IH].
    assert (t = title) as ->.
    { rewrite snd_bind in Hhd. pose proof (query_trace w t) as Htrace.
      destruct (fst (query_hardcover_graphql w t));
        rewrite Htrace in Hhd; simpl in Hhd; congruence. }
    rewrite (lookup_failure_result w title detail Hfail), bind_returns.
    reflexivity.
Qed.

(** The run of a request that reaches the loop of lines 202-223. *)
Lemma process_image_loop (w : world) (temp_name : string) (rq : request)
    (file : file_storage) (text : string) (cleaned : pyval) (books : list pyval) :
  files_get "file" (files rq) = Some file ->
  filename file <> "" ->
  fst (ocr_image w temp_name (stream file)) = Returns text ->
  text <> "" ->
  fst (clean_text_with_openai w text) = Returns cleaned ->
  contains "error" cleaned = Returns false ->
  iterate cleaned = Returns books ->
  process_image w temp_name rq
  = (finish text (fst (enrich_each w books [])),
     SaveUpload temp_name (stream file) :: OcrCall temp_name
       :: AssistantCall text :: snd (enrich_each w books [])).
Proof.
  intros Hfile Hname Hocr Htext Hclean Hin Hiter.
  rewrite (process_image_extracted w temp_name rq file text Hfile Hname Hocr Htext).
  rewrite (normalize_and_enrich_cleaned w text cleaned Hclean).
  unfold check_and_enrich.
  rewrite Hin, bind_lift_returns, Hiter, bind_lift_returns.
  destruct (enrich_each w books []) as [[e|[returned|all]] t];
    [reflexivity | |]; rewrite bind_returns; simpl; now rewrite app_nil_r.
Qed.

(** A request either reaches the loop, or ends before it: then it has made no
    lookup and its reply is not a 200. *)
Lemma reaches_loop_or_stops (w : world) (temp_name : string) (rq : request) :
  (exists file text cleaned books,
     files_get "file" (files rq) = Some file
     /\ filename file <> ""
     /\ fst (ocr_image w temp_name (stream file)) = Returns text
     /\ text <> ""
     /\ fst (clean_text_with_openai w text) = Returns cleaned
     /\ contains "error" cleaned = Returns false
     /\ iterate cleaned = Returns books)
  \/
  (catalog_calls (calls w temp_name rq) = []
   /\ forall body, serve w temp_name rq <> JsonReply 200 body).
Proof.
  destruct (files_get "file" (files rq)) as [file|] eqn:Hfile.
  2:{ right. unfold calls, serve, process_image. rewrite Hfile.
      split; [reflexivity | not_ok]. }
  destruct (String.eqb_spec (filename file) "") as [Hname|Hname].
  { right. unfold calls, serve, process_image. rewrite Hfile, Hname.
    split; [reflexivity | not_ok]. }
  destruct (fst (ocr_image w temp_name (stream file))) as [e|text] eqn:Hocr.
  { right. unfold calls, serve, process_image. rewrite Hfile.
    destruct (String.eqb_spec (filename file) ""); [contradiction|].
    rewrite !fst_bind, !snd_bind, Hocr, ocr_image_trace.
    split; [reflexivity | not_ok]. }
  destruct (String.eqb_spec text "") as [Htext|Htext].
  { right. unfold calls, serve, process_image. rewrite Hfile.
    destruct (String.eqb_spec (filename file) ""); [contradiction|].
    rewrite !fst_bind, !snd_bind, Hocr, ocr_image_trace. subst text.
    split; [reflexivity | not_ok]. }
  assert (Hrun := process_image_extracted w temp_name rq file text
                    Hfile Hname Hocr Htext).
  destruct (fst (clean_text_with_openai w text)) as [e|cleaned] eqn:Hclean.
  { right. unfold calls, serve. rewrite Hrun. unfold normalize_and_enrich.
    rewrite fst_bind, snd_bind, Hclean, clean_text_trace.
    split; [reflexivity | not_ok]. }
  rewrite (normalize_and_enrich_cleaned w text cleaned Hclean) in Hrun.
  unfold check_and_enrich in Hrun.
  destruct (contains "error" cleaned) as [e|[|]] eqn:Hin.
  { right. unfold calls, serve. rewrite Hrun, bind_lift_raises.
    split; [reflexivity | not_ok]. }
  { right. unfold calls, serve. rewrite Hrun, bind_lift_returns.
    destruct (getitem cleaned "error") as [e|detail].
    - rewrite bind_lift_raises. split; [reflexivity | not_ok].
    - rewrite bind_lift_returns. split; [reflexivity | not_ok]. }
  destruct (iterate cleaned) as [e|books] eqn:Hiter.
  { right. unfold calls, serve. rewrite Hrun, bind_lift_returns, bind_lift_raises.
    split; [reflexivity | not_ok]. }
  left. exists file, text, cleaned, books. repeat split; assumption.
Qed.

(** C1. When the first catalog lookup a request attempts fails, by a
    transport failure or by GraphQL errors, the reply is 500 and its body is
    exactly [{"error": detail}] with that failure's detail: it has no
    ["books_info"], hence no ResponseRecord, and no further lookup was
    made. *)
Theorem first_lookup_failure_aborts (w : world) (temp_name : string)
    (rq : request) (title detail : pyval) :
  hd_error (catalog_calls (calls w temp_name rq)) = Some title ->
  lookup_failure w title detail ->
  serve w temp_name rq = JsonReply 500 (PyDict [("error", detail)])
  /\ lookup "books_info" [("error", detail)] = None
  /\ catalog_calls (calls w temp_name rq) = [title].
Proof.
  intros Hfirst Hfail.
  destruct (reaches_loop_or_stops w temp_name rq)
    as [(file & text & cleaned & books & Hfile & Hname & Hocr & Htext
         & Hclean & Hin & Hiter) | [Hnone _]].
  2:{ rewrite Hnone in Hfirst. discriminate Hfirst. }
  pose proof (process_image_loop w temp_name rq file text cleaned books
                Hfile Hname Hocr Htext Hclean Hin Hiter) as Hrun.
  unfold calls in *. unfold serve. rewrite Hrun in *. simpl snd in Hfirst.
  simpl catalog_calls in Hfirst.
  rewrite (enrich_first_failure w title detail Hfail books [] Hfirst).
  repeat split.
Qed.

Lemma first_lookup_failure_aborts_witness :
  serve (Sample.stub "{books: [untitled, Dune]}" Sample.catalog_down)
        "/tmp/a" Sample.upload
  = JsonReply 500 (PyDict [("error", PyStr "Connection refused")])
  /\ lookup "books_info" [("error", PyStr "Connection refused")] = None
  /\ catalog_calls (calls (Sample.stub "{books: [untitled, Dune]}" Sample.catalog_down)
                          "/tmp/a" Sample.upload)
     = [PyStr "Dune"].
Proof.
  apply (first_lookup_failure_aborts
           (Sample.stub "{books: [untitled, Dune]}" Sample.catalog_down)
           "/tmp/a" Sample.upload (PyStr "Dune") (PyStr "Connection refused")).
  - reflexivity.
  - apply (post_raises _ _ (Exn RequestException "Connection refused"));
      reflexivity.
Defined.

(** *** Records and candidates *)

Lemma has_title_nonempty (book : pyval) :
  has_title book = true -> nonempty_title book = true.
Proof.
  destruct book as [| | | | |?|entries]; try discriminate.
  unfold has_title, nonempty_title, field.
  destruct (lookup "title" entries) as [[| | | |[|c s]| |]|];
    simpl; congruence.
Qed.

Lemma untitled_has_no_title (book : pyval) :
  untitled book = true -> has_title book = false.
Proof.
  destruct book as [| | | | |?|entries]; try discriminate.
  unfold has_title, untitled, field.
  destruct (lookup "title" entries) as [[| | | |[|c s]| |]|];
    simpl; congruence.
Qed.

Lemma filter_length_le {A} (p q : A -> bool) (l : list A) :
  (forall x, p x = true -> q x = true) ->
  (List.length (filter p l) <= List.length (filter q l))%nat.
Proof.
  intros Hpq. induction l as [|x l IH]; simpl; [lia|].
  destruct (p x) eqn:Hp.
  - rewrite (Hpq x Hp). simpl. lia.
  - destruct (q x); simpl; lia.
Qed.

(** A [return] inside the loop is always a 500. *)
Lemma enrich_each_returned_500 (w : world) (books : list pyval) :
  forall acc body status,
    fst (enrich_each w books acc) = Returns (inl (body, status)) ->
    status = 500.
Proof.
  induction books as [|book rest IH]; intros acc body status H.
  - discriminate H.
  - cbn [enrich_each] in H. rewrite fst_bind in H.
    destruct (get book "title" (PyStr "")) as [e|t]; [discriminate H|].
    cbn [lift fst] in H. rewrite fst_bind in H.
    destruct (get book "author" (PyStr "")) as [e|a]; [discriminate H|].
    cbn [lift fst] in H.
    destruct (truthy t); cbn [negb] in H; [|now apply IH in H].
    rewrite fst_bind in H.
    destruct (fst (query_hardcover_graphql w t)) as [e|answer]; [discriminate H|].
    rewrite fst_bind in H.
    destruct (contains "error" answer) as [e|[|]]; cbn [lift fst] in H;
      [discriminate H | |].
    + rewrite fst_bind in H.
      destruct (getitem answer "error") as [e|detail]; cbn [lift fst] in H;
        [discriminate H|].
      now injection H as _ <-.
    + rewrite fst_bind in H.
      destruct (get answer "books" (PyList [])) as [e|hb]; cbn [lift fst] in H;
        [discriminate H|].
      now apply IH in H.
Qed.

(** When the loop runs to its end it has appended one record for each
    candidate with a title, in the order of the candidates. *)
Lemma enrich_each_records (w : world) (books : list pyval) :
  forall acc all,
    fst (enrich_each w books acc) = Returns (inr all) ->
    exists records,
      all = acc ++ records
      /\ Forall2 record_of (filter has_title books) records.
Proof.
  induction books as [|book rest IH]; intros acc all H.
  - injection H as <-. exists []. rewrite app_nil_r. split; constructor.
  - cbn [enrich_each] in H. rewrite fst_bind in H.
    destruct book as [| | | | |?|entries]; try discriminate H.
    cbn [get lift fst] in H. rewrite fst_bind in H. cbn [lift fst] in H.
    change (match lookup "title" entries with
            | Some x => x | None => PyStr "" end)
      with (field "title" (PyDict entries)) in H.
    change (match lookup "author" entries with
            | Some x => x | None => PyStr "" end)
      with (field "author" (PyDict entries)) in H.
    cbn [filter has_title].
    destruct (truthy (field "title" (PyDict entries))); cbn [negb] in H;
      [|now apply IH in H].
    rewrite fst_bind in H.
    destruct (fst (query_hardcover_graphql w _)) as [e|answer]; [discriminate H|].
    rewrite fst_bind in H.
    destruct (contains "error" answer) as [e|[|]]; cbn [lift fst] in H;
      [discriminate H | |].
    + rewrite fst_bind in H.
      destruct (getitem answer "error") as [e|detail]; discriminate H.
    + rewrite fst_bind in H.
      destruct (get answer "books" (PyList [])) as [e|hb]; cbn [lift fst] in H;
        [discriminate H|].
      apply IH in H as (records & -> & Hrecords).
      exists (response_record (field "title" (PyDict entries))
                (field "author" (PyDict entries)) hb :: records).
      rewrite <- app_assoc. split; [reflexivity|].
      constructor; [now exists hb | exact Hrecords].
Qed.

Lemma existsb_without (p : pyval -> bool) (before after : list pyval)
    (book : pyval) :
  p book = false ->
  existsb p (before ++ book :: after) = existsb p (before ++ after).
Proof.
  intros H. rewrite !existsb_app. simpl. now rewrite H.
Qed.

Lemma enrich_each_without (w : world) (before after : list pyval) (book : pyval) :
  untitled book = true ->
  forall acc,
    enrich_each w (before ++ book :: after) acc
    = enrich_each w (before ++ after) acc.
Proof.
  intros H. induction before as [|b before IH]; intros acc.
  - now apply enrich_each_skips.
  - cbn [app enrich_each].
    destruct (get b "title" (PyStr "")) as [e|t]; [reflexivity|].
    rewrite !bind_lift_returns.
    destruct (get b "author" (PyStr "")) as [e|a]; [reflexivity|].
    rewrite !bind_lift_returns.
    destruct (truthy t); cbn [negb]; [|apply IH].
    destruct (query_hardcover_graphql w t) as [[e|answer] tr];
      [reflexivity|]. rewrite !bind_returns.
    destruct (contains "error" answer) as [e|[|]];
      [reflexivity | reflexivity |].
    rewrite !bind_lift_returns.
    destruct (get answer "books" (PyList [])) as [e|hb]; [reflexivity|].
    rewrite !bind_lift_returns. now rewrite IH.
Qed.

Lemma enrich_each_all_untitled (w : world) (books : list pyval) :
  Forall (fun book => untitled book = true) books ->
  forall acc, enrich_each w books acc = (Returns (inr acc), []).
Proof.
  induction 1 as [|book rest Hbook _ IH]; intros acc; [reflexivity|].
  now rewrite enrich_each_skips.
Qed.

Lemma untitled_is_not_error (book : pyval) :
  untitled book = true -> eq_str "error" book = false.
Proof. destruct book; try discriminate; reflexivity. Qed.

(** C4. A candidate whose title is missing or empty is dropped without a
    trace: the outcome is what it is for the list without that candidate.
    In every 200 reply, [books_info] holds one record for each candidate the
    loop looked up, in the candidates' order, so that its length is at most
    the number of candidates whose title is not empty.  A list of untitled
    candidates only is answered 200 with an empty [books_info]. *)
Theorem untitled_candidates_are_dropped (w : world) :
  (forall text before book after,
     untitled book = true ->
     check_and_enrich w text (PyList (before ++ book :: after))
     = check_and_enrich w text (PyList (before ++ after)))
  /\
  (forall temp_name rq body,
     serve w temp_name rq = JsonReply 200 body ->
     exists file text cleaned candidates records,
       files_get "file" (files rq) = Some file
       /\ fst (ocr_image w temp_name (stream file)) = Returns text
       /\ fst (clean_text_with_openai w text) = Returns cleaned
       /\ iterate cleaned = Returns candidates
       /\ body = PyDict [("extracted_text", PyStr text);
                         ("books_info", PyList records)]
       /\ Forall2 record_of (filter has_title candidates) records
       /\ (List.length records
           <= List.length (filter nonempty_title candidates))%nat)
  /\
  (forall temp_name rq file text books,
     files_get "file" (files rq) = Some file ->
     filename file <> "" ->
     fst (ocr_image w temp_name (stream file)) = Returns text ->
     text <> "" ->
     fst (clean_text_with_openai w text) = Returns (PyList books) ->
     Forall (fun book => untitled book = true) books ->
     serve w temp_name rq
     = JsonReply 200 (PyDict [("extracted_text", PyStr text);
                              ("books_info", PyList [])])).
Proof.
  split; [|split].
  - intros text before book after Hbook. unfold check_and_enrich.
    cbn [contains iterate].
    rewrite (existsb_without _ before after book (untitled_is_not_error _ Hbook)).
    rewrite !bind_lift_returns.
    destruct (existsb (eq_str "error") (before ++ after)); [reflexivity|].
    now rewrite (enrich_each_without w before after book Hbook).
  - intros temp_name rq body Hserve.
    destruct (reaches_loop_or_stops w temp_name rq)
      as [(file & text & cleaned & books & Hfile & Hname & Hocr & Htext
           & Hclean & Hin & Hiter) | [_ Hnot]].
    2:{ now apply Hnot in Hserve. }
    pose proof (process_image_loop w temp_name rq file text cleaned books
                  Hfile Hname Hocr Htext Hclean Hin Hiter) as Hrun.
    unfold serve in Hserve. rewrite Hrun in Hserve. cbn [fst] in Hserve.
    destruct (fst (enrich_each w books [])) as [e|[[b status]|all]] eqn:Hloop;
      cbn [finish respond] in Hserve.
    + now apply respond_raises in Hserve.
    + apply enrich_each_returned_500 in Hloop. subst status.
      discriminate Hserve.
    + injection Hserve as <-.
      apply enrich_each_records in Hloop as (records & -> & Hrecords).
      exists file, text, cleaned, books, records.
      repeat (split; [assumption || reflexivity|]).
      rewrite <- (Forall2_length Hrecords).
      apply filter_length_le, has_title_nonempty.
  - intros temp_name rq file text books Hfile Hname Hocr Htext Hclean Hall.
    assert (Hin : contains "error" (PyList books) = Returns false).
    { cbn [contains]. f_equal. clear -Hall.
      induction Hall as [|book rest Hbook _ IH]; [reflexivity|].
      simpl. now rewrite (untitled_is_not_error _ Hbook). }
    unfold serve.
    rewrite (process_image_loop w temp_name rq file text (PyList books) books
               Hfile Hname Hocr Htext Hclean Hin eq_refl).
    now rewrite (enrich_each_all_untitled w books Hall).
Qed.

Lemma untitled_candidates_are_dropped_witness :
  (check_and_enrich (Sample.stub "" Sample.catalog_ok) "Dune"
     (PyList ([] ++ PyDict [("author", PyStr "X")]
                 :: [PyDict [("title", PyStr "Dune")]]))
   = check_and_enrich (Sample.stub "" Sample.catalog_ok) "Dune"
       (PyList ([] ++ [PyDict [("title", PyStr "Dune")]])))
  /\
  (exists file text cleaned candidates records,
     files_get "file" (files Sample.upload) = Some file
     /\ fst (ocr_image (Sample.stub "{books: [untitled, Dune]}" Sample.catalog_ok)
               "/tmp/a" (stream file)) = Returns text
     /\ fst (clean_text_with_openai
               (Sample.stub "{books: [untitled, Dune]}" Sample.catalog_ok) text)
        = Returns cleaned
     /\ iterate cleaned = Returns candidates
     /\ PyDict [("extracted_text", PyStr "Dune Frank Herbert");
                ("books_info",
                 PyList [PyDict [("extracted_title", PyStr "Dune");
                                 ("extracted_author", PyStr "Frank Herbert");
                                 ("hardcover_books", PyList [Sample.dune_hit])]])]
        = PyDict [("extracted_text", PyStr text); ("books_info", PyList records)]
     /\ Forall2 record_of (filter has_title candidates) records
     /\ (List.length records
         <= List.length (filter nonempty_title candidates))%nat)
  /\
  serve (Sample.stub "{books: [untitled]}" Sample.catalog_ok) "/tmp/a" Sample.upload
  = JsonReply 200 (PyDict [("extracted_text", PyStr "Dune Frank Herbert");
                           ("books_info", PyList [])]).
Proof.
  split; [|split].
  - apply (proj1 (untitled_candidates_are_dropped
                    (Sample.stub "" Sample.catalog_ok))). reflexivity.
  - apply (proj1 (proj2 (untitled_candidates_are_dropped
                           (Sample.stub "{books: [untitled, Dune]}"
                              Sample.catalog_ok)))
             "/tmp/a" Sample.upload). reflexivity.
  - apply (proj2 (proj2 (untitled_candidates_are_dropped
                           (Sample.stub "{books: [untitled]}" Sample.catalog_ok)))
             "/tmp/a" Sample.upload
             (FileStorage "shelf.jpg" [x89; x50; x4e; x47])
             "Dune Frank Herbert"
             [PyDict [("title", PyStr ""); ("author", PyStr "X")]]).
    + reflexivity.
    + discriminate.
    + reflexivity.
    + discriminate.
    + reflexivity.
    + constructor; [reflexivity | constructor].
Defined.

(** *** The membership test on a list of books *)

Lemma existsb_eq_str (k : string) (books : list pyval) :
  In (PyStr k) books -> existsb (eq_str k) books = true.
Proof.
  intros H. apply existsb_exists. exists (PyStr k). split; [exact H|].
  apply String.eqb_refl.
Qed.

(** C10. The orchestrator tells the normaliser's error from its books by the
    test ["error" in cleaned_books].  On a list of books that has the string
    ["error"] among its elements the test holds, the failure branch indexes
    the list with ["error"], and that raises [TypeError]: nothing is looked
    up, and a request whose books are such a list gets the 500 page of an
    unhandled exception, never a 200. *)
Theorem error_string_among_books_raises (w : world) (text : string)
    (books : list pyval) :
  In (PyStr "error") books ->
  contains "error" (PyList books) = Returns true
  /\ check_and_enrich w text (PyList books)
     = (Raises (Exn TypeError "list indices must be integers or slices, not str"),
        [])
  /\ forall temp_name rq file,
       files_get "file" (files rq) = Some file ->
       filename file <> "" ->
       fst (ocr_image w temp_name (stream file)) = Returns text ->
       text <> "" ->
       fst (clean_text_with_openai w text) = Returns (PyList books) ->
       serve w temp_name rq = InternalServerError
       /\ (forall body, serve w temp_name rq <> JsonReply 200 body)
       /\ catalog_calls (calls w temp_name rq) = [].
Proof.
  intros Hin. apply existsb_eq_str in Hin.
  assert (Hcheck : check_and_enrich w text (PyList books)
                   = (Raises (Exn TypeError
                        "list indices must be integers or slices, not str"), [])).
  { unfold check_and_enrich. cbn [contains]. rewrite Hin, bind_lift_returns.
    reflexivity. }
  split; [cbn [contains]; now rewrite Hin|].
  split; [exact Hcheck|].
  intros temp_name rq file Hfile Hname Hocr Htext Hclean.
  unfold serve, calls.
  rewrite (process_image_extracted w temp_name rq file text Hfile Hname Hocr Htext).
  rewrite (normalize_and_enrich_cleaned w text _ Hclean), Hcheck.
  repeat split. discriminate.
Qed.

Lemma error_string_among_books_raises_witness :
  serve (Sample.stub "{books: [error]}" Sample.catalog_ok) "/tmp/a" Sample.upload
  = InternalServerError.
Proof.
  apply (proj2 (proj2 (error_string_among_books_raises
                         (Sample.stub "{books: [error]}" Sample.catalog_ok)
                         "Dune Frank Herbert" [PyStr "error"]
                         (or_introl eq_refl)))
           "/tmp/a" Sample.upload (FileStorage "shelf.jpg" [x89; x50; x4e; x47]));
    try reflexivity; discriminate.
Defined.

(** *** A failing OCR engine *)

(** The [except] clause of [ocr_image] returns the message of the exception,
    a string like any extracted text. *)
Lemma ocr_image_catches (w : world) (path : string) (data : list byte) (e : exn) :
  ocr w path data = Raises e ->
  is_Exception e = true ->
  ocr_image w path data = (Returns (str_e e), [OcrCall path]).
Proof.
  intros Hocr He. unfold ocr_image, try_except, call.
  rewrite Hocr, bind_raises, He. reflexivity.
Qed.

(** C2, on the code.  The OCR engine raises "cannot identify image file
    /tmp/a"; [ocr_image] returns that message, [process_image] finds it
    non-empty, sends it to the assistant as the extracted text and answers
    200 with the message under ["extracted_text"]. *)
Theorem ocr_exception_message_is_extracted_text :
  ocr_image (Sample.unreadable "{books: [Dune]}" Sample.catalog_ok) "/tmp/a"
            [x89; x50; x4e; x47]
  = (Returns "cannot identify image file /tmp/a", [OcrCall "/tmp/a"])
  /\
  serve (Sample.unreadable "{books: [Dune]}" Sample.catalog_ok) "/tmp/a"
        Sample.upload
  = JsonReply 200
      (PyDict [("extracted_text", PyStr "cannot identify image file /tmp/a");
               ("books_info",
                PyList [PyDict [("extracted_title", PyStr "Dune");
                                ("extracted_author", PyStr "Frank Herbert");
                                ("hardcover_books", PyList [Sample.dune_hit])]])])
  /\
  calls (Sample.unreadable "{books: [Dune]}" Sample.catalog_ok) "/tmp/a"
        Sample.upload
  = [SaveUpload "/tmp/a" [x89; x50; x4e; x47];
     OcrCall "/tmp/a";
     AssistantCall "cannot identify image file /tmp/a";
     CatalogCall (PyStr "Dune")].
Proof. repeat split. Qed.

(** *** Identical uploads *)



Section Wire.

(** [jsonify]: the serialisation of a body, a function of the body. *)
Variable jsonify : pyval -> string.


End Wire.


(** The name of the file also reaches the reply through an exception: the
    engine of [Sample.unreadable] names the file in its message, which
    [ocr_image] returns as the text. *)
Remark temp_name_reaches_reply :
  serve (Sample.unreadable "{books: [Dune]}" Sample.catalog_ok) "/tmp/a"
        Sample.upload
  <> serve (Sample.unreadable "{books: [Dune]}" Sample.catalog_ok) "/tmp/b"
           Sample.upload.
Proof. vm_compute. discriminate. Qed.

End Orchestrate.

(** ** Start-up *)

Module StartupFacts.
Import Py Startup.

(** X1. The module loads only with both credentials set to non-empty strings, and
    then holds exactly those; a HARDCOVER token that is missing or empty stops
    it with the HARDCOVER message whatever the other variable is, and
    otherwise a missing or empty OpenAI key stops it with the OpenAI
    message. *)
Theorem credentials_are_required (environ : string -> option string) :
  (forall result,
     validate environ = Returns result ->
     exists token key,
       environ "HARDCOVER_BEARER_TOKEN" = Some token /\ token <> ""
       /\ environ "OPENAI_API_KEY" = Some key /\ key <> ""
       /\ result = (PyStr token, PyStr key))
  /\
  (environ "HARDCOVER_BEARER_TOKEN" = None
   \/ environ "HARDCOVER_BEARER_TOKEN" = Some "" ->
   validate environ
   = Raises (Exn OtherException
               "HARDCOVER_BEARER_TOKEN is not set in the environment variables."))
  /\
  (forall token,
     environ "HARDCOVER_BEARER_TOKEN" = Some token -> token <> "" ->
     environ "OPENAI_API_KEY" = None \/ environ "OPENAI_API_KEY" = Some "" ->
     validate environ
     = Raises (Exn OtherException
                 "OPENAI_API_KEY is not set in the environment variables.")).
Proof.
  unfold validate, getenv. split; [|split].
  - intros result.
    destruct (environ "HARDCOVER_BEARER_TOKEN") as [token|]; [|discriminate].
    cbn [truthy]. destruct (String.eqb_spec token ""); [discriminate|].
    destruct (environ "OPENAI_API_KEY") as [key|]; [|discriminate].
    cbn [truthy negb]. destruct (String.eqb_spec key ""); [discriminate|].
    intros [= <-]. now exists token, key.
  - intros [-> | ->]; reflexivity.
  - intros token -> Htoken Hkey. cbn [truthy].
    destruct (String.eqb_spec token ""); [contradiction|].
    destruct Hkey as [-> | ->]; reflexivity.
Qed.

Lemma credentials_are_required_witness :
  (exists token key,
     (fun name => if (name =? "OPENAI_API_KEY")%string then Some "sk-1"
                  else Some "Bearer abc") "HARDCOVER_BEARER_TOKEN" = Some token
     /\ token <> ""
     /\ (fun name => if (name =? "OPENAI_API_KEY")%string then Some "sk-1"
                     else Some "Bearer abc") "OPENAI_API_KEY" = Some key
     /\ key <> ""
     /\ (PyStr "Bearer abc", PyStr "sk-1") = (PyStr token, PyStr key))
  /\
  validate (fun name => if (name =? "OPENAI_API_KEY")%string then Some "sk-1"
                        else Some "")
  = Raises (Exn OtherException
              "HARDCOVER_BEARER_TOKEN is not set in the environment variables.")
  /\
  validate (fun name => if (name =? "OPENAI_API_KEY")%string then None
                        else Some "Bearer abc")
  = Raises (Exn OtherException
              "OPENAI_API_KEY is not set in the environment variables.").
Proof.
  split; [|split].
  - apply (proj1 (credentials_are_required
                    (fun name => if (name =? "OPENAI_API_KEY")%string
                                 then Some "sk-1" else Some "Bearer abc"))).
    reflexivity.
  - apply (proj1 (proj2 (credentials_are_required
                           (fun name => if (name =? "OPENAI_API_KEY")%string
                                        then Some "sk-1" else Some "")))).
    right. reflexivity.
  - apply (proj2 (proj2 (credentials_are_required
                           (fun name => if (name =? "OPENAI_API_KEY")%string
                                        then None else Some "Bearer abc")))
             "Bearer abc").
    + reflexivity.
    + discriminate.
    + left. reflexivity.
Defined.

End StartupFacts.

(** ** More on text extraction *)

Module ExtractFacts.
Import Py Run App Spec Notions Stages Extract.

Lemma scan_lines_raises (result : ocr_result) :
  forall text e,
    scan_lines text result = Raises e ->
    e = Exn TypeError "'NoneType' object is not iterable".
Proof.
  induction result as [|line rest IH]; intros text e H; [discriminate H|].
  cbn [scan_lines] in H. destruct line as [words|]; cbn [scan_line] in H.
  - now apply IH in H.
  - now injection H as <-.
Qed.

Lemma scan_lines_none (result : ocr_result) :
  In None result ->
  forall text,
    scan_lines text result
    = Raises (Exn TypeError "'NoneType' object is not iterable").
Proof.
  induction result as [|line rest IH]; intros Hin text; [destruct Hin|].
  cbn [scan_lines]. destruct line as [words|]; cbn [scan_line]; [|reflexivity].
  destruct Hin as [Hline|Hin]; [discriminate Hline | now apply IH].
Qed.

(** X2. The wrapper turns every [Exception] into a string: an exception comes out
    of [ocr_image] only if the engine raised it and it is no [Exception]
    ([KeyboardInterrupt], [SystemExit]). *)
Theorem ocr_image_lets_through_only_base (w : world) (path : string)
    (data : list byte) (e : exn) :
  fst (ocr_image w path data) = Raises e ->
  ocr w path data = Raises e /\ is_Exception e = false.
Proof.
  unfold ocr_image, try_except, call.
  destruct (ocr w path data) as [e'|result].
  - rewrite bind_raises. destruct (is_Exception e') eqn:He'; cbn [fst].
    + discriminate.
    + intros [= <-]. now split.
  - rewrite bind_returns.
    destruct (scan_lines "" result) as [e'|text] eqn:Hscan; [|discriminate].
    apply scan_lines_raises in Hscan. subst e'. discriminate.
Qed.

Lemma ocr_image_lets_through_only_base_witness :
  ocr (Cases.fixed (Raises (Exn BaseExceptionOnly "KeyboardInterrupt"))
         Cases.answered Cases.dune_books (Cases.catalog_says PyNone))
      "/tmp/a" []
  = Raises (Exn BaseExceptionOnly "KeyboardInterrupt")
  /\ is_Exception (Exn BaseExceptionOnly "KeyboardInterrupt") = false.
Proof.
  apply (ocr_image_lets_through_only_base
           (Cases.fixed (Raises (Exn BaseExceptionOnly "KeyboardInterrupt"))
              Cases.answered Cases.dune_books (Cases.catalog_says PyNone))
           "/tmp/a" []).
  reflexivity.
Defined.

(** X3. A result with a [None] line, whatever its other lines hold, comes out as
    the message of the [TypeError] that iterating [None] raises. *)
Theorem none_line_becomes_the_text (w : world) (path : string)
    (data : list byte) (result : ocr_result) :
  ocr w path data = Returns result ->
  In None result ->
  ocr_image w path data
  = (Returns "'NoneType' object is not iterable", [OcrCall path]).
Proof.
  intros Hocr Hnone. unfold ocr_image, try_except, call.
  rewrite Hocr, bind_returns, (scan_lines_none result Hnone).
  reflexivity.
Qed.

Lemma none_line_becomes_the_text_witness :
  ocr_image (Cases.fixed (Returns [Some [([], ("Dune", 0.5%float))]; None])
               Cases.answered Cases.dune_books (Cases.catalog_says PyNone))
            "/tmp/a" []
  = (Returns "'NoneType' object is not iterable", [OcrCall "/tmp/a"]).
Proof.
  apply (none_line_becomes_the_text _ "/tmp/a" []
           [Some [([], ("Dune", 0.5%float))]; None]).
  - reflexivity.
  - right. left. reflexivity.
Defined.

(** *** Blank text *)

Lemma blank_app (a b : string) : blank (a ++ b) = blank a && blank b.
Proof.
  induction a as [|c a IH]; simpl; [reflexivity|].
  now rewrite IH, andb_assoc.
Qed.

Lemma blank_join (texts : list string) :
  blank (String.concat " " texts) = forallb blank texts.
Proof.
  induction texts as [|t rest IH]; [reflexivity|].
  destruct rest as [|t' rest'].
  - simpl. now rewrite andb_true_r.
  - change (String.concat " " (t :: t' :: rest'))
      with (t ++ " " ++ String.concat " " (t' :: rest'))%string.
    rewrite !blank_app, IH. reflexivity.
Qed.

Lemma rstrip_blank (s : string) : blank s = true -> rstrip s = "".
Proof.
  induction s as [|c s IH]; [reflexivity|]. simpl.
  intros H. apply andb_true_iff in H as [Hc Hs].
  now rewrite (IH Hs), Hc.
Qed.

Lemma strip_not_blank (s : string) : blank s = false -> strip s <> "".
Proof.
  unfold strip. induction s as [|c s IH]; [discriminate|].
  cbn [blank rstrip]. destruct (is_space c) eqn:Hc; cbn [andb].
  - intros Hs. specialize (IH Hs).
    destruct (rstrip s) as [|c' r]; [now contradiction IH|].
    cbn [lstrip]. now rewrite Hc.
  - intros _. destruct (rstrip s) as [|c' r]; cbn [lstrip]; rewrite Hc;
      discriminate.
Qed.

(** The text of a well-formed result is empty exactly when every field is
    blank. *)
Lemma joined_and_trimmed_empty (lines : list (list word_info)) :
  joined_and_trimmed lines = "" <-> forallb blank (recognized_texts lines) = true.
Proof.
  unfold joined_and_trimmed. rewrite <- blank_join. split.
  - intros H. destruct (blank (String.concat " " (recognized_texts lines))) eqn:E;
      [reflexivity|]. now apply strip_not_blank in E.
  - intros H. unfold strip. now rewrite (rstrip_blank _ H).
Qed.

Lemma ocr_image_text (w : world) (path : string) (data : list byte)
    (lines : list (list word_info)) :
  ocr w path data = Returns (map Some lines) ->
  fst (ocr_image w path data) = Returns (joined_and_trimmed lines).
Proof.
  intros Hocr. unfold ocr_image, joined_and_trimmed, try_except, call.
  rewrite Hocr, bind_returns, scan_lines_well_formed, bind_lift_returns.
  simpl. now rewrite strip_spaced.
Qed.

(** A request whose extracted text is empty ends at line 192. *)
Lemma process_image_no_text (w : world) (temp_name : string) (rq : request)
    (file : file_storage) :
  files_get "file" (files rq) = Some file ->
  filename file <> "" ->
  fst (ocr_image w temp_name (stream file)) = Returns "" ->
  process_image w temp_name rq
  = (Returns (error_dict (PyStr "Could not extract text from image"), 500),
     [SaveUpload temp_name (stream file); OcrCall temp_name]).
Proof.
  intros Hfile Hname Hocr. unfold process_image. rewrite Hfile.
  destruct (String.eqb_spec (filename file) ""); [contradiction|].
  pose proof (ocr_image_trace w temp_name (stream file)) as Htrace.
  destruct (ocr_image w temp_name (stream file)) as [o t].
  simpl in Hocr, Htrace. subst o t. unfold call. now rewrite !bind_returns.
Qed.

(** The assistant is the first to be called after the OCR engine. *)
Lemma normalize_and_enrich_starts (w : world) (text : string) :
  exists later, snd (normalize_and_enrich w text) = AssistantCall text :: later.
Proof.
  unfold normalize_and_enrich.
  pose proof (clean_text_trace w text) as Htrace.
  destruct (clean_text_with_openai w text) as [[e|cleaned] t];
    simpl in Htrace; subst t.
  - now exists [].
  - rewrite bind_returns. now eexists.
Qed.

(** X4. When the engine finds only blank fields, or none at all, the reply is
    500 "Could not extract text from image" and the assistant is not called;
    when some field is not blank the assistant is called next, with the
    joined and trimmed text. *)
Theorem blank_text_is_refused (w : world) (temp_name : string) (rq : request)
    (file : file_storage) (lines : list (list word_info)) :
  files_get "file" (files rq) = Some file ->
  filename file <> "" ->
  ocr w temp_name (stream file) = Returns (map Some lines) ->
  (forallb blank (recognized_texts lines) = true ->
   serve w temp_name rq
   = JsonReply 500 (PyDict [("error", PyStr "Could not extract text from image")])
   /\ calls w temp_name rq
      = [SaveUpload temp_name (stream file); OcrCall temp_name])
  /\
  (forallb blank (recognized_texts lines) = false ->
   exists later,
     calls w temp_name rq
     = SaveUpload temp_name (stream file) :: OcrCall temp_name
         :: AssistantCall (joined_and_trimmed lines) :: later).
Proof.
  intros Hfile Hname Hocr. apply ocr_image_text in Hocr. split.
  - intros Hblank. apply joined_and_trimmed_empty in Hblank.
    rewrite Hblank in Hocr. unfold serve, calls.
    now rewrite (process_image_no_text w temp_name rq file Hfile Hname Hocr).
  - intros Hblank.
    assert (Htext : joined_and_trimmed lines <> "").
    { intros H. apply joined_and_trimmed_empty in H. congruence. }
    unfold calls.
    rewrite (process_image_extracted w temp_name rq file _ Hfile Hname Hocr Htext).
    destruct (normalize_and_enrich_starts w (joined_and_trimmed lines))
      as [later Hlater].
    exists later. cbn [snd]. now rewrite Hlater.
Qed.

Lemma blank_text_is_refused_witness :
  (serve (Cases.fixed (Returns [Some [([], ("  ", 0.5%float))]; Some []])
            Cases.answered Cases.dune_books (Cases.catalog_says PyNone))
         "/tmp/a" Sample.upload
   = JsonReply 500 (PyDict [("error", PyStr "Could not extract text from image")])
   /\ calls (Cases.fixed (Returns [Some [([], ("  ", 0.5%float))]; Some []])
               Cases.answered Cases.dune_books (Cases.catalog_says PyNone))
            "/tmp/a" Sample.upload
      = [SaveUpload "/tmp/a" [x89; x50; x4e; x47]; OcrCall "/tmp/a"])
  /\
  (exists later,
     calls (Sample.stub "" Sample.catalog_ok) "/tmp/a" Sample.upload
     = SaveUpload "/tmp/a" [x89; x50; x4e; x47] :: OcrCall "/tmp/a"
         :: AssistantCall "Dune Frank Herbert" :: later).
Proof.
  split.
  - apply (proj1 (blank_text_is_refused
                    (Cases.fixed (Returns [Some [([], ("  ", 0.5%float))]; Some []])
                       Cases.answered Cases.dune_books (Cases.catalog_says PyNone))
                    "/tmp/a" Sample.upload
                    (FileStorage "shelf.jpg" [x89; x50; x4e; x47])
                    [[([], ("  ", 0.5%float))]; []]
                    eq_refl ltac:(discriminate) eq_refl)).
    reflexivity.
  - apply (proj2 (blank_text_is_refused
                    (Sample.stub "" Sample.catalog_ok) "/tmp/a" Sample.upload
                    (FileStorage "shelf.jpg" [x89; x50; x4e; x47])
                    [[([], ("Dune", 0.5%float)); ([], ("Frank", 0.5%float));
                      ([], ("Herbert ", 0.25%float))]]
                    eq_refl ltac:(discriminate) eq_refl)).
    reflexivity.
Defined.

(** *** A failing engine *)

(** X5. When the engine raises an [Exception], the request goes on as if the
    exception's message were the text read from the image: an empty message
    is refused with 500 "Could not extract text from image", any other
    message is sent to the assistant and the request ends as normalisation
    and enrichment of that message end. *)
Theorem engine_failure_is_read_as_text (w : world) (temp_name : string)
    (rq : request) (file : file_storage) (e : exn) :
  files_get "file" (files rq) = Some file ->
  filename file <> "" ->
  ocr w temp_name (stream file) = Raises e ->
  is_Exception e = true ->
  (str_e e = "" ->
   serve w temp_name rq
   = JsonReply 500 (PyDict [("error", PyStr "Could not extract text from image")])
   /\ calls w temp_name rq
      = [SaveUpload temp_name (stream file); OcrCall temp_name])
  /\
  (str_e e <> "" ->
   process_image w temp_name rq
   = (fst (normalize_and_enrich w (str_e e)),
      SaveUpload temp_name (stream file) :: OcrCall temp_name
        :: snd (normalize_and_enrich w (str_e e)))).
Proof.
  intros Hfile Hname Hocr He.
  assert (Htext : fst (ocr_image w temp_name (stream file)) = Returns (str_e e)).
  { unfold ocr_image, try_except, call. now rewrite Hocr, bind_raises, He. }
  split.
  - intros Hempty. rewrite Hempty in Htext. unfold serve, calls.
    now rewrite (process_image_no_text w temp_name rq file Hfile Hname Htext).
  - intros Hmessage.
    exact (process_image_extracted w temp_name rq file _ Hfile Hname Htext Hmessage).
Qed.

Lemma engine_failure_is_read_as_text_witness :
  (serve (Cases.fixed (Raises (Exn OtherException ""))
            Cases.answered Cases.dune_books (Cases.catalog_says PyNone))
         "/tmp/a" Sample.upload
   = JsonReply 500 (PyDict [("error", PyStr "Could not extract text from image")])
   /\ calls (Cases.fixed (Raises (Exn OtherException ""))
               Cases.answered Cases.dune_books (Cases.catalog_says PyNone))
            "/tmp/a" Sample.upload
      = [SaveUpload "/tmp/a" [x89; x50; x4e; x47]; OcrCall "/tmp/a"])
  /\
  process_image (Cases.fixed (Raises (Exn OtherException "out of memory"))
                   Cases.answered Cases.dune_books (Cases.catalog_says PyNone))
                "/tmp/a" Sample.upload
  = (fst (normalize_and_enrich
            (Cases.fixed (Raises (Exn OtherException "out of memory"))
               Cases.answered Cases.dune_books (Cases.catalog_says PyNone))
            "out of memory"),
     SaveUpload "/tmp/a" [x89; x50; x4e; x47] :: OcrCall "/tmp/a"
       :: snd (normalize_and_enrich
                 (Cases.fixed (Raises (Exn OtherException "out of memory"))
                    Cases.answered Cases.dune_books (Cases.catalog_says PyNone))
                 "out of memory")).
Proof.
  split.
  - apply (proj1 (engine_failure_is_read_as_text
                    (Cases.fixed (Raises (Exn OtherException ""))
                       Cases.answered Cases.dune_books (Cases.catalog_says PyNone))
                    "/tmp/a" Sample.upload
                    (FileStorage "shelf.jpg" [x89; x50; x4e; x47])
                    (Exn OtherException "")
                    eq_refl ltac:(discriminate) eq_refl eq_refl)).
    reflexivity.
  - apply (proj2 (engine_failure_is_read_as_text
                    (Cases.fixed (Raises (Exn OtherException "out of memory"))
                       Cases.answered Cases.dune_books (Cases.catalog_says PyNone))
                    "/tmp/a" Sample.upload
                    (FileStorage "shelf.jpg" [x89; x50; x4e; x47])
                    (Exn OtherException "out of memory")
                    eq_refl ltac:(discriminate) eq_refl eq_refl)).
    discriminate.
Defined.

End ExtractFacts.

(** ** More on normalisation *)

Module NormalizeFacts.
Import Py Run App Spec Notions Stages Normalize.

Lemma first_text_json_no_text (w : world) (parts : list content_part) :
  first_text parts = None -> first_text_json w parts = Returns (inr PyNone).
Proof.
  induction parts as [|part parts IH]; simpl; [reflexivity|].
  destruct part; auto. discriminate.
Qed.

(** What the validation of lines 125-128 makes of a decoded document. *)
Lemma clean_text_decoded (w : world) (text : string) (msgs : list message)
    (m : message) (value : string) (doc : pyval) :
  assistant w text = Returns msgs ->
  find is_assistant msgs = Some m ->
  first_text (content m) = Some value ->
  json_loads w value = Returns doc ->
  fst (clean_text_with_openai w text)
  = if truthy doc then
      match contains "books" doc with
      | Raises e => Raises e
      | Returns true => getitem doc "books"
      | Returns false => Returns invalid_schema
      end
    else Returns invalid_schema.
Proof.
  intros Hrun Hfind Hpart Hdoc.
  now rewrite (clean_text_read w text msgs m value Hrun Hfind Hpart), Hdoc.
Qed.

(** X6. An assistant message without a text part, and a document that is falsy
    ([null], [false], [0], the empty string, list or object), are answered
    with the error "Invalid response schema". *)
Theorem nothing_to_read_is_invalid_schema (w : world) (text : string)
    (msgs : list message) (m : message) :
  assistant w text = Returns msgs ->
  find is_assistant msgs = Some m ->
  (first_text (content m) = None ->
   fst (clean_text_with_openai w text)
   = Returns (PyDict [("error", PyStr "Invalid response schema")]))
  /\
  (forall value doc,
     first_text (content m) = Some value ->
     json_loads w value = Returns doc ->
     truthy doc = false ->
     fst (clean_text_with_openai w text)
     = Returns (PyDict [("error", PyStr "Invalid response schema")])).
Proof.
  intros Hrun Hfind. split.
  - intros Hnone. unfold clean_text_with_openai, call.
    rewrite Hrun, bind_returns, Hfind, (first_text_json_no_text w _ Hnone).
    reflexivity.
  - intros value doc Hpart Hdoc Hfalsy.
    rewrite (clean_text_decoded w text msgs m value doc Hrun Hfind Hpart Hdoc).
    now rewrite Hfalsy.
Qed.

Lemma nothing_to_read_is_invalid_schema_witness :
  fst (clean_text_with_openai
         (Cases.fixed Cases.reads_dune
            (Returns [Message "assistant" [ImageFilePart; RefusalPart]])
            Cases.dune_books (Cases.catalog_says PyNone)) "Dune")
  = Returns (PyDict [("error", PyStr "Invalid response schema")])
  /\
  fst (clean_text_with_openai
         (Cases.fixed Cases.reads_dune Cases.answered (Returns (PyList []))
            (Cases.catalog_says PyNone)) "Dune")
  = Returns (PyDict [("error", PyStr "Invalid response schema")]).
Proof.
  split.
  - apply (proj1 (nothing_to_read_is_invalid_schema
                    (Cases.fixed Cases.reads_dune
                       (Returns [Message "assistant" [ImageFilePart; RefusalPart]])
                       Cases.dune_books (Cases.catalog_says PyNone))
                    "Dune" _ (Message "assistant" [ImageFilePart; RefusalPart])
                    eq_refl eq_refl)).
    reflexivity.
  - apply (proj2 (nothing_to_read_is_invalid_schema
                    (Cases.fixed Cases.reads_dune Cases.answered (Returns (PyList []))
                       (Cases.catalog_says PyNone))
                    "Dune" _ (Message "assistant" [TextPart "json"])
                    eq_refl eq_refl)
             "json" (PyList [])); reflexivity.
Defined.

(** X7. Only a JSON object can be normalised: for a document of any other kind
    the normaliser answers the error "Invalid response schema" or raises
    [TypeError], and never returns a books value. *)
Theorem only_objects_are_normalised (w : world) (text : string)
    (msgs : list message) (m : message) (value : string) (doc : pyval) :
  assistant w text = Returns msgs ->
  find is_assistant msgs = Some m ->
  first_text (content m) = Some value ->
  json_loads w value = Returns doc ->
  is_object doc = false ->
  fst (clean_text_with_openai w text)
  = Returns (PyDict [("error", PyStr "Invalid response schema")])
  \/ exists message,
       fst (clean_text_with_openai w text) = Raises (Exn TypeError message).
Proof.
  intros Hrun Hfind Hpart Hdoc Hkind.
  rewrite (clean_text_decoded w text msgs m value doc Hrun Hfind Hpart Hdoc).
  destruct (truthy doc); [|now left].
  destruct doc as [|b|z|f|s|items|entries]; try discriminate Hkind;
    cbn [contains getitem];
    try (right; eexists; reflexivity).
  - destruct (substring_of "books" s); [right; eexists; reflexivity | now left].
  - destruct (existsb (eq_str "books") items);
      [right; eexists; reflexivity | now left].
Qed.

Lemma only_objects_are_normalised_witness :
  fst (clean_text_with_openai
         (Cases.fixed Cases.reads_dune Cases.answered
            (Returns (PyList [PyStr "books"; PyStr "Dune"]))
            (Cases.catalog_says PyNone)) "Dune")
  = Returns (PyDict [("error", PyStr "Invalid response schema")])
  \/ exists message,
       fst (clean_text_with_openai
              (Cases.fixed Cases.reads_dune Cases.answered
                 (Returns (PyList [PyStr "books"; PyStr "Dune"]))
                 (Cases.catalog_says PyNone)) "Dune")
       = Raises (Exn TypeError message).
Proof.
  apply (only_objects_are_normalised
           (Cases.fixed Cases.reads_dune Cases.answered
              (Returns (PyList [PyStr "books"; PyStr "Dune"]))
              (Cases.catalog_says PyNone))
           "Dune" [Message "assistant" [TextPart "json"]]
           (Message "assistant" [TextPart "json"]) "json"
           (PyList [PyStr "books"; PyStr "Dune"]));
    reflexivity.
Defined.

(** X8. An exception of the assistant's client is not caught anywhere: it ends
    the request after the OCR and the one assistant call; when it is an
    [Exception] the client gets the 500 page of an unhandled exception, and
    otherwise Flask raises it again and the application gives no reply. *)
Theorem assistant_failure_is_not_caught (w : world) (temp_name : string)
    (rq : request) (file : file_storage) (text : string) (e : exn) :
  files_get "file" (files rq) = Some file ->
  filename file <> "" ->
  fst (ocr_image w temp_name (stream file)) = Returns text ->
  text <> "" ->
  assistant w text = Raises e ->
  process_image w temp_name rq
  = (Raises e, [SaveUpload temp_name (stream file); OcrCall temp_name;
                AssistantCall text])
  /\ (is_Exception e = true -> serve w temp_name rq = InternalServerError)
  /\ (is_Exception e = false -> serve w temp_name rq = Unanswered e).
Proof.
  intros Hfile Hname Hocr Htext Hrun.
  assert (Hp : process_image w temp_name rq
               = (Raises e, [SaveUpload temp_name (stream file);
                             OcrCall temp_name; AssistantCall text])).
  { rewrite (process_image_extracted w temp_name rq file text
               Hfile Hname Hocr Htext).
    unfold normalize_and_enrich, clean_text_with_openai, call.
    now rewrite Hrun, !bind_raises. }
  split; [exact Hp|]. unfold serve, respond. rewrite Hp. cbn [fst].
  split; intros ->; reflexivity.
Qed.

Lemma assistant_failure_is_not_caught_witness :
  process_image
    (Cases.fixed Cases.reads_dune (Raises (Exn OtherException "rate limit"))
       Cases.dune_books (Cases.catalog_says PyNone))
    "/tmp/a" Sample.upload
  = (Raises (Exn OtherException "rate limit"),
     [SaveUpload "/tmp/a" [x89; x50; x4e; x47]; OcrCall "/tmp/a";
      AssistantCall "Dune"])
  /\ serve
       (Cases.fixed Cases.reads_dune (Raises (Exn OtherException "rate limit"))
          Cases.dune_books (Cases.catalog_says PyNone))
       "/tmp/a" Sample.upload
     = InternalServerError
  /\ serve
       (Cases.fixed Cases.reads_dune
          (Raises (Exn BaseExceptionOnly "KeyboardInterrupt"))
          Cases.dune_books (Cases.catalog_says PyNone))
       "/tmp/a" Sample.upload
     = Unanswered (Exn BaseExceptionOnly "KeyboardInterrupt").
Proof.
  split; [|split].
  - apply (proj1 (assistant_failure_is_not_caught
                    (Cases.fixed Cases.reads_dune
                       (Raises (Exn OtherException "rate limit"))
                       Cases.dune_books (Cases.catalog_says PyNone))
                    "/tmp/a" Sample.upload
                    (FileStorage "shelf.jpg" [x89; x50; x4e; x47])
                    "Dune" (Exn OtherException "rate limit")
                    eq_refl ltac:(discriminate) eq_refl ltac:(discriminate)
                    eq_refl)).
  - apply (proj1 (proj2 (assistant_failure_is_not_caught
                           (Cases.fixed Cases.reads_dune
                              (Raises (Exn OtherException "rate limit"))
                              Cases.dune_books (Cases.catalog_says PyNone))
                           "/tmp/a" Sample.upload
                           (FileStorage "shelf.jpg" [x89; x50; x4e; x47])
                           "Dune" (Exn OtherException "rate limit")
                           eq_refl ltac:(discriminate) eq_refl ltac:(discriminate)
                           eq_refl))).
    reflexivity.
  - apply (proj2 (proj2 (assistant_failure_is_not_caught
                           (Cases.fixed Cases.reads_dune
                              (Raises (Exn BaseExceptionOnly "KeyboardInterrupt"))
                              Cases.dune_books (Cases.catalog_says PyNone))
                           "/tmp/a" Sample.upload
                           (FileStorage "shelf.jpg" [x89; x50; x4e; x47])
                           "Dune" (Exn BaseExceptionOnly "KeyboardInterrupt")
                           eq_refl ltac:(discriminate) eq_refl ltac:(discriminate)
                           eq_refl))).
    reflexivity.
Defined.

(** X9. Whenever the normaliser's answer is an object with an ["error"] key (its
    own three error replies, but also a books value that happens to be such
    an object) the reply is 500 with the value under that key, and the
    catalog is not called. *)
Theorem normaliser_error_is_relayed (w : world) (temp_name : string)
    (rq : request) (file : file_storage) (text : string)
    (entries : list (string * pyval)) (detail : pyval) :
  files_get "file" (files rq) = Some file ->
  filename file <> "" ->
  fst (ocr_image w temp_name (stream file)) = Returns text ->
  text <> "" ->
  fst (clean_text_with_openai w text) = Returns (PyDict entries) ->
  lookup "error" entries = Some detail ->
  serve w temp_name rq = JsonReply 500 (PyDict [("error", detail)])
  /\ calls w temp_name rq
     = [SaveUpload temp_name (stream file); OcrCall temp_name; AssistantCall text].
Proof.
  intros Hfile Hname Hocr Htext Hclean Hdetail. unfold serve, calls.
  rewrite (process_image_extracted w temp_name rq file text Hfile Hname Hocr Htext).
  rewrite (normalize_and_enrich_cleaned w text _ Hclean).
  unfold check_and_enrich. cbn [contains getitem].
  rewrite Hdetail, !bind_lift_returns. now split.
Qed.

Lemma normaliser_error_is_relayed_witness :
  serve (Cases.fixed Cases.reads_dune Cases.answered
           (Returns (PyDict [("books", PyDict [("error", PyInt 3)])]))
           (Cases.catalog_says PyNone))
        "/tmp/a" Sample.upload
  = JsonReply 500 (PyDict [("error", PyInt 3)])
  /\ calls (Cases.fixed Cases.reads_dune Cases.answered
              (Returns (PyDict [("books", PyDict [("error", PyInt 3)])]))
              (Cases.catalog_says PyNone))
           "/tmp/a" Sample.upload
     = [SaveUpload "/tmp/a" [x89; x50; x4e; x47]; OcrCall "/tmp/a";
        AssistantCall "Dune"].
Proof.
  apply (normaliser_error_is_relayed
           (Cases.fixed Cases.reads_dune Cases.answered
              (Returns (PyDict [("books", PyDict [("error", PyInt 3)])]))
              (Cases.catalog_says PyNone))
           "/tmp/a" Sample.upload (FileStorage "shelf.jpg" [x89; x50; x4e; x47])
           "Dune" [("error", PyInt 3)] (PyInt 3));
    try reflexivity; discriminate.
Defined.

End NormalizeFacts.

(** ** More on catalog lookups *)

Module CatalogFacts.
Import Py Run App Spec Notions Stages Catalog.

(** An exception leaves a [try] whose handler returns only if the [except]
    clause does not name its class. *)
Lemma try_except_raises {A} (body : M A) (catches : exn -> bool)
    (handler : exn -> M A) (e : exn) :
  (forall e', exists a t, handler e' = (Returns a, t)) ->
  fst (try_except body catches handler) = Raises e ->
  fst body = Raises e /\ catches e = false.
Proof.
  intros Hhandler. unfold try_except.
  destruct body as [[e'|a] t]; cbn [fst]; [|discriminate].
  destruct (catches e') eqn:Hc.
  - destruct (Hhandler e') as (a & t' & ->). discriminate.
  - intros [= <-]. now split.
Qed.

(** X10. A lookup never raises a request exception: transport failures, error
    statuses and undecodable bodies all come back as a result. *)
Theorem lookup_raises_no_request_exception (w : world) (title : pyval) (e : exn) :
  fst (query_hardcover_graphql w title) = Raises e ->
  is_RequestException e = false.
Proof.
  unfold query_hardcover_graphql. intros H.
  apply try_except_raises in H; [apply H|].
  intros e'. now eexists _, _.
Qed.

Lemma lookup_raises_no_request_exception_witness :
  fst (query_hardcover_graphql
         (Cases.fixed Cases.reads_dune Cases.answered Cases.dune_books
            (Cases.catalog_says (PyInt 5)))
         (PyStr "Dune"))
  = Raises (Exn TypeError "argument of type 'int' is not iterable")
  /\ is_RequestException (Exn TypeError "argument of type 'int' is not iterable")
     = false.
Proof.
  split; [reflexivity|].
  apply (lookup_raises_no_request_exception
           (Cases.fixed Cases.reads_dune Cases.answered Cases.dune_books
              (Cases.catalog_says (PyInt 5)))
           (PyStr "Dune")).
  reflexivity.
Defined.

(** X11. A response that passes the status check with a body that decodes to
    anything but a JSON object makes the lookup raise [TypeError] or
    [AttributeError], which its [except] clause does not catch. *)
Theorem non_object_body_raises (w : world) (title : pyval) (r : response)
    (data : pyval) :
  requests_post w title = Returns r ->
  raise_for_status r = Returns tt ->
  json r = Returns data ->
  is_object data = false ->
  exists message,
    query_hardcover_graphql w title
    = (Raises (Exn TypeError message), [CatalogCall title])
    \/ query_hardcover_graphql w title
       = (Raises (Exn AttributeError message), [CatalogCall title]).
Proof.
  intros Hpost Hstatus Hjson Hkind.
  unfold query_hardcover_graphql, try_except, call.
  rewrite Hpost, bind_returns, Hstatus, bind_lift_returns, Hjson,
    bind_lift_returns.
  destruct data as [|b|z|f|s|items|entries]; try discriminate Hkind;
    cbn [contains];
    try (rewrite bind_lift_raises; eexists; left; reflexivity).
  - rewrite bind_lift_returns.
    destruct (substring_of "errors" s); cbn [getitem get];
      rewrite ?bind_lift_raises; eexists;
      [left | right]; reflexivity.
  - rewrite bind_lift_returns.
    destruct (existsb (eq_str "errors") items); cbn [getitem get];
      rewrite ?bind_lift_raises; eexists;
      [left | right]; reflexivity.
Qed.

Lemma non_object_body_raises_witness :
  exists message,
    query_hardcover_graphql
      (Cases.fixed Cases.reads_dune Cases.answered Cases.dune_books
         (Cases.catalog_says (PyList []))) (PyStr "Dune")
    = (Raises (Exn TypeError message), [CatalogCall (PyStr "Dune")])
    \/ query_hardcover_graphql
         (Cases.fixed Cases.reads_dune Cases.answered Cases.dune_books
            (Cases.catalog_says (PyList []))) (PyStr "Dune")
       = (Raises (Exn AttributeError message), [CatalogCall (PyStr "Dune")]).
Proof.
  apply (non_object_body_raises
           (Cases.fixed Cases.reads_dune Cases.answered Cases.dune_books
              (Cases.catalog_says (PyList []))) (PyStr "Dune")
           (Response 200 "OK" Sample.endpoint (Returns (PyList [])))
           (PyList []));
    reflexivity.
Defined.

End CatalogFacts.

(** ** More on the orchestrator *)

Module OrchestrateFacts.
Import Py Run App Spec Notions Stages Catalog Orchestrate ExtractFacts.

(** Every request ends in one of the six ways of [run_shape]. *)
Lemma process_image_shape (w : world) (temp_name : string) (rq : request) :
  run_shape w temp_name rq.
Proof.
  destruct (files_get "file" (files rq)) as [file|] eqn:Hfile.
  2:{ apply (shape_refused _ _ _ (PyStr "No file uploaded")).
      unfold process_image. now rewrite Hfile. }
  destruct (String.eqb_spec (filename file) "") as [Hname|Hname].
  { apply (shape_refused _ _ _ (PyStr "No selected file")).
    unfold process_image. now rewrite Hfile, Hname. }
  destruct (fst (ocr_image w temp_name (stream file))) as [e|text] eqn:Hocr.
  { apply (shape_ocr_escaped _ _ _ file e Hfile).
    unfold process_image. rewrite Hfile.
    destruct (String.eqb_spec (filename file) ""); [contradiction|].
    pose proof (ocr_image_trace w temp_name (stream file)) as Htrace.
    destruct (ocr_image w temp_name (stream file)) as [o t].
    simpl in Hocr, Htrace. subst o t. unfold call.
    now rewrite bind_returns, bind_raises. }
  destruct (String.eqb_spec text "") as [Htext|Htext].
  { subst text. apply (shape_no_text _ _ _ file Hfile Hocr).
    exact (process_image_no_text w temp_name rq file Hfile Hname Hocr). }
  pose proof (process_image_extracted w temp_name rq file text
                Hfile Hname Hocr Htext) as Hrun.
  destruct (fst (clean_text_with_openai w text)) as [e|cleaned] eqn:Hclean.
  { apply (shape_raised _ _ _ file text e Hfile Hocr Htext).
    rewrite Hrun. unfold normalize_and_enrich.
    now rewrite fst_bind, snd_bind, Hclean, clean_text_trace. }
  rewrite (normalize_and_enrich_cleaned w text cleaned Hclean) in Hrun.
  unfold check_and_enrich in Hrun.
  destruct (contains "error" cleaned) as [e|[|]] eqn:Hin.
  - apply (shape_raised _ _ _ file text e Hfile Hocr Htext).
    now rewrite Hrun, bind_lift_raises.
  - rewrite bind_lift_returns in Hrun.
    destruct (getitem cleaned "error") as [e|detail].
    + apply (shape_raised _ _ _ file text e Hfile Hocr Htext).
      now rewrite Hrun, bind_lift_raises.
    + apply (shape_error_reply _ _ _ file text detail Hfile Hocr Htext).
      now rewrite Hrun, bind_lift_returns.
  - destruct (iterate cleaned) as [e|books] eqn:Hiter.
    + apply (shape_raised _ _ _ file text e Hfile Hocr Htext).
      now rewrite Hrun, bind_lift_returns, bind_lift_raises.
    + apply (shape_looped _ _ _ file text cleaned books
               Hfile Hocr Htext Hclean Hin Hiter).
      exact (process_image_loop w temp_name rq file text cleaned books
               Hfile Hname Hocr Htext Hclean Hin Hiter).
Qed.

(** A [return] inside the loop carries an error body. *)
Lemma enrich_each_returned_error (w : world) (books : list pyval) :
  forall acc returned,
    fst (enrich_each w books acc) = Returns (inl returned) ->
    exists detail, returned = (error_dict detail, 500).
Proof.
  induction books as [|book rest IH]; intros acc returned H.
  - discriminate H.
  - cbn [enrich_each] in H. rewrite fst_bind in H.
    destruct (get book "title" (PyStr "")) as [e|t]; [discriminate H|].
    cbn [lift fst] in H. rewrite fst_bind in H.
    destruct (get book "author" (PyStr "")) as [e|a]; [discriminate H|].
    cbn [lift fst] in H.
    destruct (truthy t); cbn [negb] in H; [|now apply IH in H].
    rewrite fst_bind in H.
    destruct (fst (query_hardcover_graphql w t)) as [e|answer]; [discriminate H|].
    rewrite fst_bind in H.
    destruct (contains "error" answer) as [e|[|]]; cbn [lift fst] in H;
      [discriminate H | |].
    + rewrite fst_bind in H.
      destruct (getitem answer "error") as [e|detail]; cbn [lift fst] in H;
        [discriminate H|].
      injection H as <-. now exists detail.
    + rewrite fst_bind in H.
      destruct (get answer "books" (PyList [])) as [e|hb]; cbn [lift fst] in H;
        [discriminate H|].
      now apply IH in H.
Qed.

(** The loop calls nothing but the catalog. *)
Lemma enrich_each_trace (w : world) (books : list pyval) :
  forall acc,
    snd (enrich_each w books acc)
    = map CatalogCall (catalog_calls (snd (enrich_each w books acc))).
Proof.
  induction books as [|book rest IH]; intros acc; [reflexivity|].
  cbn [enrich_each].
  destruct (get book "title" (PyStr "")) as [e|t]; [reflexivity|].
  rewrite bind_lift_returns.
  destruct (get book "author" (PyStr "")) as [e|a]; [reflexivity|].
  rewrite bind_lift_returns.
  destruct (truthy t); cbn [negb]; [|apply IH].
  pose proof (query_trace w t) as Htrace.
  destruct (query_hardcover_graphql w t) as [[e|answer] tr];
    simpl in Htrace; subst tr; [reflexivity|].
  rewrite bind_returns. cbn [snd app catalog_calls map]. f_equal.
  destruct (contains "error" answer) as [e|[|]]; [reflexivity | |].
  - rewrite bind_lift_returns.
    now destruct (getitem answer "error") as [e|detail].
  - rewrite bind_lift_returns.
    destruct (get answer "books" (PyList [])) as [e|hb]; [reflexivity|].
    rewrite bind_lift_returns. apply IH.
Qed.

(** X12. Every JSON reply is either a 200 with the two keys of the success payload
    or a 400 or 500 whose body is exactly [{"error": detail}]: a reply never
    carries both an error and records. *)
Theorem reply_is_payload_or_error (w : world) (temp_name : string)
    (rq : request) (status : Z) (body : pyval) :
  serve w temp_name rq = JsonReply status body ->
  (status = 200
   /\ exists text records,
        body = PyDict [("extracted_text", PyStr text);
                       ("books_info", PyList records)])
  \/
  ((status = 400 \/ status = 500)
   /\ exists detail, body = PyDict [("error", detail)]).
Proof.
  unfold serve.
  destruct (process_image_shape w temp_name rq)
    as [detail Hp | file e _ Hp | file _ _ Hp | file text e _ _ _ Hp
        | file text detail _ _ _ Hp | file text cleaned books _ _ _ _ _ _ Hp];
    rewrite Hp; cbn [fst]; try (intros Hraised; now apply respond_raises in Hraised);
    cbn [respond].
  - intros [= <- <-]. right. split; [now left | now exists detail].
  - intros [= <- <-]. right. split; [now right | now eexists].
  - intros [= <- <-]. right. split; [now right | now exists detail].
  - destruct (fst (enrich_each w books [])) as [e|[returned|all]] eqn:Hloop;
      cbn [finish];
      [intros Hraised; now apply respond_raises in Hraised | |].
    + apply enrich_each_returned_error in Hloop as [detail ->].
      intros [= <- <-]. right. split; [now right | now exists detail].
    + intros [= <- <-]. left. split; [reflexivity | now exists text, all].
Qed.

Lemma reply_is_payload_or_error_witness :
  (500 = 200
   /\ exists text records,
        PyDict [("error", PyStr "Connection refused")]
        = PyDict [("extracted_text", PyStr text); ("books_info", PyList records)])
  \/
  ((500 = 400 \/ 500 = 500)
   /\ exists detail,
        PyDict [("error", PyStr "Connection refused")]
        = PyDict [("error", detail)]).
Proof.
  apply (reply_is_payload_or_error
           (Sample.stub "{books: [Dune]}" Sample.catalog_down)
           "/tmp/a" Sample.upload).
  reflexivity.
Defined.

(** X13. The calls of a request follow the pipeline: nothing at all; or saving
    the upload and one OCR call; or these, then one assistant call on the
    text [ocr_image] returned, then catalog lookups only. *)
Theorem calls_follow_the_pipeline (w : world) (temp_name : string)
    (rq : request) :
  calls w temp_name rq = []
  \/ (exists file,
        files_get "file" (files rq) = Some file
        /\ calls w temp_name rq
           = [SaveUpload temp_name (stream file); OcrCall temp_name])
  \/ (exists file text titles,
        files_get "file" (files rq) = Some file
        /\ fst (ocr_image w temp_name (stream file)) = Returns text
        /\ calls w temp_name rq
           = SaveUpload temp_name (stream file) :: OcrCall temp_name
               :: AssistantCall text :: map CatalogCall titles).
Proof.
  unfold calls.
  destruct (process_image_shape w temp_name rq)
    as [detail Hp | file e Hfile Hp | file Hfile _ Hp | file text e Hfile Hocr _ Hp
        | file text detail Hfile Hocr _ Hp
        | file text cleaned books Hfile Hocr _ _ _ _ Hp];
    rewrite Hp; cbn [snd].
  - now left.
  - right. left. now exists file.
  - right. left. now exists file.
  - right. right. now exists file, text, [].
  - right. right. now exists file, text, [].
  - right. right.
    exists file, text, (catalog_calls (snd (enrich_each w books []))).
    repeat (split; [assumption|]). now rewrite <- enrich_each_trace.
Qed.

(** *** The loop, candidate by candidate *)

(** What one turn of the loop does with a titled candidate whose lookup
    answers an object without ["error"]: it appends the candidate's record
    and goes on. *)
Lemma get_of_object (answer : pyval) (name : string) (default found : pyval) :
  get answer name default = Returns found -> is_object answer = true.
Proof. destruct answer; try discriminate; reflexivity. Qed.

Lemma books_of_get (answer found : pyval) :
  get answer "books" (PyList []) = Returns found -> found = books_of answer.
Proof. destruct answer; try discriminate. cbn. now intros [= <-]. Qed.

(** When the loop runs to its end, every candidate was an object, the
    records are those of the titled candidates in order, and the catalog was
    asked for exactly their titles, in order. *)
Lemma enrich_each_complete (w : world) (books : list pyval) :
  forall acc all,
    fst (enrich_each w books acc) = Returns (inr all) ->
    all = acc ++ map (record_for w) (filter has_title books)
    /\ catalog_calls (snd (enrich_each w books acc)) = titles_looked_up books
    /\ forallb is_object books = true.
Proof.
  unfold titles_looked_up.
  induction books as [|book rest IH]; intros acc all H.
  - injection H as <-. now rewrite app_nil_r.
  - cbn [enrich_each] in *.
    destruct book as [| | | | |?|entries]; try discriminate H.
    cbn [get forallb is_object andb filter has_title] in *.
    rewrite !bind_lift_returns in *.
    change (match lookup "title" entries with
            | Some x => x | None => PyStr "" end)
      with (field "title" (PyDict entries)) in *.
    change (match lookup "author" entries with
            | Some x => x | None => PyStr "" end)
      with (field "author" (PyDict entries)) in *.
    destruct (truthy (field "title" (PyDict entries))); cbn [negb] in *;
      [|now apply IH].
    unfold record_for at 1. cbn [map].
    pose proof (query_trace w (field "title" (PyDict entries))) as Htrace.
    destruct (query_hardcover_graphql w (field "title" (PyDict entries)))
      as [[e|answer] tr]; simpl in Htrace; subst tr; [discriminate H|].
    rewrite bind_returns in *. cbn [fst snd app catalog_calls] in *.
    destruct (contains "error" answer) as [e|[|]]; [discriminate H | |].
    + rewrite bind_lift_returns in H.
      destruct (getitem answer "error"); discriminate H.
    + rewrite bind_lift_returns in *.
      destruct (get answer "books" (PyList [])) as [e|hb] eqn:Hget;
        [discriminate H|].
      rewrite bind_lift_returns in *.
      apply books_of_get in Hget. subst hb.
      apply IH in H as (-> & Hcalls & Hobjects).
      rewrite <- app_assoc. cbn [app map]. repeat split.
      * cbn [field]. f_equal. exact Hcalls.
      * exact Hobjects.
Qed.

(** In every run the titles looked up are the first few of the titles of the
    titled candidates, in order: none is looked up twice, none is skipped. *)
Lemma enrich_each_calls_prefix (w : world) (books : list pyval) :
  forall acc,
    exists rest,
      titles_looked_up books
      = catalog_calls (snd (enrich_each w books acc)) ++ rest.
Proof.
  unfold titles_looked_up.
  induction books as [|book rest IH]; intros acc; [now exists []|].
  cbn [enrich_each].
  destruct book as [| | | | |?|entries];
    try (cbn [get]; rewrite bind_lift_raises; now eexists).
  cbn [get filter has_title]. rewrite !bind_lift_returns.
  change (match lookup "title" entries with
          | Some x => x | None => PyStr "" end)
    with (field "title" (PyDict entries)).
  destruct (truthy (field "title" (PyDict entries))); cbn [negb]; [|apply IH].
  cbn [map].
  pose proof (query_trace w (field "title" (PyDict entries))) as Htrace.
  destruct (query_hardcover_graphql w (field "title" (PyDict entries)))
    as [[e|answer] tr]; simpl in Htrace; subst tr; [now eexists|].
  rewrite bind_returns. cbn [snd app catalog_calls].
  destruct (contains "error" answer) as [e|[|]]; [now eexists | |].
  - rewrite bind_lift_returns.
    destruct (getitem answer "error"); now eexists.
  - rewrite bind_lift_returns.
    destruct (get answer "books" (PyList [])) as [e|hb]; [now eexists|].
    rewrite bind_lift_returns.
    destruct (IH (acc ++ [response_record (field "title" (PyDict entries))
                            match lookup "author" entries with
                            | Some x => x
                            | None => PyStr ""
                            end hb])) as [rest' Hrest].
    exists rest'. cbn [app]. now rewrite Hrest.
Qed.

(** X14. A 200 reply tells the whole run: every candidate was a JSON object, the
    catalog was asked once for each candidate with a title, in the candidates'
    order, and [books_info] holds for each of them its title, its author and
    the ["books"] of the catalog's answer for that title (the empty list
    when the answer has none). *)
Theorem every_200_reply_is_complete (w : world) (temp_name : string)
    (rq : request) (body : pyval) :
  serve w temp_name rq = JsonReply 200 body ->
  exists file text cleaned candidates,
    files_get "file" (files rq) = Some file
    /\ fst (ocr_image w temp_name (stream file)) = Returns text
    /\ fst (clean_text_with_openai w text) = Returns cleaned
    /\ iterate cleaned = Returns candidates
    /\ forallb is_object candidates = true
    /\ body = PyDict [("extracted_text", PyStr text);
                      ("books_info",
                       PyList (map (record_for w) (filter has_title candidates)))]
    /\ catalog_calls (calls w temp_name rq) = titles_looked_up candidates.
Proof.
  unfold serve, calls.
  destruct (process_image_shape w temp_name rq)
    as [detail Hp | file e _ Hp | file _ _ Hp | file text e _ _ _ Hp
        | file text detail _ _ _ Hp
        | file text cleaned books Hfile Hocr _ Hclean _ Hiter Hp];
    rewrite Hp; cbn [fst snd]; try raised; cbn [respond]; try discriminate.
  destruct (fst (enrich_each w books [])) as [e|[returned|all]] eqn:Hloop;
    cbn [finish]; [raised | |].
  - apply enrich_each_returned_error in Hloop as [detail ->]. discriminate.
  - intros [= <-].
    apply enrich_each_complete in Hloop as (-> & Hcalls & Hobjects).
    exists file, text, cleaned, books.
    repeat (split; [assumption || reflexivity|]). exact Hcalls.
Qed.

Lemma every_200_reply_is_complete_witness :
  exists file text cleaned candidates,
    files_get "file" (files Sample.upload) = Some file
    /\ fst (ocr_image (Sample.stub "{books: [untitled, Dune]}" Sample.catalog_ok)
              "/tmp/a" (stream file)) = Returns text
    /\ fst (clean_text_with_openai
              (Sample.stub "{books: [untitled, Dune]}" Sample.catalog_ok) text)
       = Returns cleaned
    /\ iterate cleaned = Returns candidates
    /\ forallb is_object candidates = true
    /\ PyDict [("extracted_text", PyStr "Dune Frank Herbert");
               ("books_info",
                PyList [PyDict [("extracted_title", PyStr "Dune");
                                ("extracted_author", PyStr "Frank Herbert");
                                ("hardcover_books", PyList [Sample.dune_hit])]])]
       = PyDict [("extracted_text", PyStr text);
                 ("books_info",
                  PyList (map (record_for (Sample.stub "{books: [untitled, Dune]}"
                                             Sample.catalog_ok))
                              (filter has_title candidates)))]
    /\ catalog_calls (calls (Sample.stub "{books: [untitled, Dune]}"
                               Sample.catalog_ok) "/tmp/a" Sample.upload)
       = titles_looked_up candidates.
Proof.
  apply (every_200_reply_is_complete
           (Sample.stub "{books: [untitled, Dune]}" Sample.catalog_ok)
           "/tmp/a" Sample.upload).
  reflexivity.
Defined.

(** X15. Whatever the outcome of a request that got an answer from the assistant,
    the titles it looked up are the first few titles of the candidates with a
    title, in the candidates' order: the catalog is asked at most once per
    such candidate and no candidate is passed over. *)
Theorem lookups_are_a_prefix_of_the_titles (w : world) (temp_name : string)
    (rq : request) (file : file_storage) (text : string) (cleaned : pyval)
    (candidates : list pyval) :
  files_get "file" (files rq) = Some file ->
  filename file <> "" ->
  fst (ocr_image w temp_name (stream file)) = Returns text ->
  text <> "" ->
  fst (clean_text_with_openai w text) = Returns cleaned ->
  iterate cleaned = Returns candidates ->
  (exists rest,
     titles_looked_up candidates
     = catalog_calls (calls w temp_name rq) ++ rest)
  /\ (List.length (catalog_calls (calls w temp_name rq))
      <= List.length (filter has_title candidates))%nat.
Proof.
  intros Hfile Hname Hocr Htext Hclean Hiter.
  assert (Hprefix : exists rest,
             titles_looked_up candidates
             = catalog_calls (calls w temp_name rq) ++ rest).
  { unfold calls.
    rewrite (process_image_extracted w temp_name rq file text
               Hfile Hname Hocr Htext).
    rewrite (normalize_and_enrich_cleaned w text cleaned Hclean).
    cbn [snd catalog_calls]. unfold check_and_enrich.
    destruct (contains "error" cleaned) as [e|[|]]; [now eexists | |].
    - rewrite bind_lift_returns.
      destruct (getitem cleaned "error"); now eexists.
    - rewrite bind_lift_returns, Hiter, bind_lift_returns.
      destruct (enrich_each_calls_prefix w candidates []) as [rest Hrest].
      exists rest. rewrite Hrest. f_equal.
      destruct (enrich_each w candidates []) as [[e|[returned|all]] t];
        [reflexivity | |]; rewrite bind_returns; cbn [snd ret];
        now rewrite app_nil_r. }
  split; [exact Hprefix|].
  destruct Hprefix as [rest Hrest].
  apply (f_equal (@List.length pyval)) in Hrest.
  unfold titles_looked_up in Hrest.
  rewrite length_map, length_app in Hrest. lia.
Qed.

Lemma lookups_are_a_prefix_of_the_titles_witness :
  (exists rest,
     titles_looked_up [PyDict [("title", PyStr "Dune")];
                       PyDict [("title", PyStr "Emma")]]
     = catalog_calls
         (calls (Cases.fixed Cases.reads_dune Cases.answered
                   (Returns (PyDict [("books",
                            PyList [PyDict [("title", PyStr "Dune")];
                                    PyDict [("title", PyStr "Emma")]])]))
                   Sample.catalog_down)
                "/tmp/a" Sample.upload) ++ rest)
  /\ (List.length
        (catalog_calls
           (calls (Cases.fixed Cases.reads_dune Cases.answered
                     (Returns (PyDict [("books",
                              PyList [PyDict [("title", PyStr "Dune")];
                                      PyDict [("title", PyStr "Emma")]])]))
                     Sample.catalog_down)
                  "/tmp/a" Sample.upload))
      <= List.length
           (filter has_title [PyDict [("title", PyStr "Dune")];
                              PyDict [("title", PyStr "Emma")]]))%nat.
Proof.
  apply (lookups_are_a_prefix_of_the_titles
           (Cases.fixed Cases.reads_dune Cases.answered
              (Returns (PyDict [("books",
                       PyList [PyDict [("title", PyStr "Dune")];
                               PyDict [("title", PyStr "Emma")]])]))
              Sample.catalog_down)
           "/tmp/a" Sample.upload (FileStorage "shelf.jpg" [x89; x50; x4e; x47])
           "Dune"
           (PyList [PyDict [("title", PyStr "Dune")];
                    PyDict [("title", PyStr "Emma")]]));
    try reflexivity; discriminate.
Defined.

(** *** An answer with an ["error"] key *)

Lemma enrich_first_error_key (w : world) (title detail : pyval)
    (entries : list (string * pyval)) :
  fst (query_hardcover_graphql w title) = Returns (PyDict entries) ->
  lookup "error" entries = Some detail ->
  forall books acc,
    hd_error (catalog_calls (snd (enrich_each w books acc))) = Some title ->
    enrich_each w books acc
    = (Returns (inl (error_dict detail, 500)), [CatalogCall title]).
Proof.
  intros Hanswer Hdetail. induction books as [|book rest IH]; intros acc Hhd.
  - discriminate Hhd.
  - cbn [enrich_each] in *.
    destruct (get book "title" (PyStr "")) as [e|t];
      [rewrite bind_lift_raises in Hhd; discriminate Hhd|].
    rewrite bind_lift_returns in *.
    destruct (get book "author" (PyStr "")) as [e|a];
      [rewrite bind_lift_raises in Hhd; discriminate Hhd|].
    rewrite bind_lift_returns in *.
    destruct (truthy t); cbn [negb] in *; [|now apply IH].
    assert (t = title) as ->.
    { rewrite snd_bind in Hhd. pose proof (query_trace w t) as Htrace.
      destruct (fst (query_hardcover_graphql w t));
        rewrite Htrace in Hhd; simpl in Hhd; congruence. }
    pose proof (query_trace w title) as Htrace.
    destruct (query_hardcover_graphql w title) as [o tr].
    simpl in Hanswer, Htrace. subst o tr.
    rewrite bind_returns. cbn [contains getitem].
    rewrite Hdetail, !bind_lift_returns. reflexivity.
Qed.

(** X16. The loop tells a failed lookup from an answer by the key ["error"]
    alone: when the first lookup of a request is answered with an object
    that has an ["error"] key, be it the catalog's own ["data"] object, the
    reply is 500 with the value under that key and the request ends after
    that one lookup. *)
Theorem answer_with_error_key_ends_the_request (w : world) (temp_name : string)
    (rq : request) (title detail : pyval) (entries : list (string * pyval)) :
  hd_error (catalog_calls (calls w temp_name rq)) = Some title ->
  fst (query_hardcover_graphql w title) = Returns (PyDict entries) ->
  lookup "error" entries = Some detail ->
  serve w temp_name rq = JsonReply 500 (PyDict [("error", detail)])
  /\ catalog_calls (calls w temp_name rq) = [title].
Proof.
  intros Hfirst Hanswer Hdetail. unfold serve, calls in *.
  destruct (process_image_shape w temp_name rq)
    as [d Hp | file e _ Hp | file _ _ Hp | file text e _ _ _ Hp
        | file text d _ _ _ Hp | file text cleaned books _ _ _ _ _ _ Hp];
    rewrite Hp in *; cbn [fst snd catalog_calls] in *; try discriminate Hfirst.
  rewrite (enrich_first_error_key w title detail entries Hanswer Hdetail
             books [] Hfirst).
  now split.
Qed.

Lemma answer_with_error_key_ends_the_request_witness :
  serve (Cases.fixed Cases.reads_dune Cases.answered Cases.dune_books
           (Cases.catalog_says
              (PyDict [("data", PyDict [("books", PyList [Sample.dune_hit]);
                                        ("error", PyStr "partial")])])))
        "/tmp/a" Sample.upload
  = JsonReply 500 (PyDict [("error", PyStr "partial")])
  /\ catalog_calls
       (calls (Cases.fixed Cases.reads_dune Cases.answered Cases.dune_books
                 (Cases.catalog_says
                    (PyDict [("data", PyDict [("books", PyList [Sample.dune_hit]);
                                              ("error", PyStr "partial")])])))
              "/tmp/a" Sample.upload)
     = [PyStr "Dune"].
Proof.
  apply (answer_with_error_key_ends_the_request
           (Cases.fixed Cases.reads_dune Cases.answered Cases.dune_books
              (Cases.catalog_says
                 (PyDict [("data", PyDict [("books", PyList [Sample.dune_hit]);
                                           ("error", PyStr "partial")])])))
           "/tmp/a" Sample.upload (PyStr "Dune") (PyStr "partial")
           [("books", PyList [Sample.dune_hit]); ("error", PyStr "partial")]);
    reflexivity.
Defined.

(** *** A books value that is no list *)

(** X17. When the value the normaliser returns is not a list, the request is
    answered 200 only if that value is the empty object or the empty string,
    and then without any record: an object or a string with something in it,
    a number, a boolean or [null] never give a 200. *)
Theorem books_that_are_no_list (w : world) (temp_name : string) (rq : request)
    (file : file_storage) (text : string) (cleaned body : pyval) :
  files_get "file" (files rq) = Some file ->
  filename file <> "" ->
  fst (ocr_image w temp_name (stream file)) = Returns text ->
  text <> "" ->
  fst (clean_text_with_openai w text) = Returns cleaned ->
  (forall items, cleaned <> PyList items) ->
  serve w temp_name rq = JsonReply 200 body ->
  (cleaned = PyDict [] \/ cleaned = PyStr "")
  /\ body = PyDict [("extracted_text", PyStr text); ("books_info", PyList [])].
Proof.
  intros Hfile Hname Hocr Htext Hclean Hkind.
  rewrite (serve_extracted w temp_name rq file text Hfile Hname Hocr Htext).
  rewrite (normalize_and_enrich_cleaned w text cleaned Hclean). cbn [fst].
  unfold check_and_enrich.
  destruct cleaned as [|b|z|f|s|items|entries]; cbn [contains iterate];
    try (rewrite bind_lift_raises; discriminate).
  - rewrite bind_lift_returns.
    destruct (substring_of "error" s); [discriminate|].
    rewrite bind_lift_returns.
    destruct s as [|c s]; cbn [chars enrich_each get].
    + intros [= <-]. split; [now right | reflexivity].
    + discriminate.
  - now contradiction (Hkind items).
  - rewrite bind_lift_returns.
    destruct (lookup "error" entries) as [detail|].
    + cbn [getitem]. destruct (lookup "error" entries); discriminate.
    + rewrite bind_lift_returns.
      destruct entries as [|[k v] entries]; cbn [map enrich_each get].
      * intros [= <-]. split; [now left | reflexivity].
      * discriminate.
Qed.

Lemma books_that_are_no_list_witness :
  (PyDict [] = PyDict [] \/ PyDict [] = PyStr "")
  /\ PyDict [("extracted_text", PyStr "Dune"); ("books_info", PyList [])]
     = PyDict [("extracted_text", PyStr "Dune"); ("books_info", PyList [])].
Proof.
  apply (books_that_are_no_list
           (Cases.fixed Cases.reads_dune Cases.answered
              (Returns (PyDict [("books", PyDict [])])) (Cases.catalog_says PyNone))
           "/tmp/a" Sample.upload (FileStorage "shelf.jpg" [x89; x50; x4e; x47])
           "Dune" (PyDict []));
    try reflexivity; discriminate.
Defined.

(** *** The loop over two lists *)

(** X18. The loop stops for good at the first candidate that ends it, and
    otherwise carries its records over: when the loop over [first] runs to
    its end with the records [collected], the loop over [first ++ second] is
    the loop over [second] started from [collected], after the calls of the
    loop over [first]; when the loop over [first] returns or raises, the loop
    over [first ++ second] does just the same, whatever [second] holds. *)
Theorem loop_over_two_lists (w : world) (first second : list pyval) :
  forall acc,
    (forall collected,
       fst (enrich_each w first acc) = Returns (inr collected) ->
       enrich_each w (first ++ second) acc
       = (fst (enrich_each w second collected),
          snd (enrich_each w first acc) ++ snd (enrich_each w second collected)))
    /\
    ((forall collected,
        fst (enrich_each w first acc) <> Returns (inr collected)) ->
     enrich_each w (first ++ second) acc = enrich_each w first acc).
Proof.
  induction first as [|book rest IH]; intros acc.
  - split.
    + intros collected [= <-]. cbn [app enrich_each ret snd].
      now destruct (enrich_each w second acc).
    + intros Hnot. now contradiction (Hnot acc).
  - cbn [app enrich_each].
    destruct (get book "title" (PyStr "")) as [e|t];
      [split; [discriminate | reflexivity]|].
    rewrite !bind_lift_returns.
    destruct (get book "author" (PyStr "")) as [e|a];
      [split; [discriminate | reflexivity]|].
    rewrite !bind_lift_returns.
    destruct (truthy t); cbn [negb]; [|apply IH].
    destruct (query_hardcover_graphql w t) as [[e|answer] tr];
      [split; [discriminate | reflexivity]|].
    rewrite !bind_returns.
    destruct (contains "error" answer) as [e|[|]];
      [split; [discriminate | reflexivity] | |].
    + rewrite !bind_lift_returns.
      destruct (getitem answer "error") as [e|detail];
        (split; [discriminate | reflexivity]).
    + rewrite !bind_lift_returns.
      destruct (get answer "books" (PyList [])) as [e|hb];
        [split; [discriminate | reflexivity]|].
      rewrite !bind_lift_returns. cbn [fst snd].
      destruct (IH (acc ++ [response_record t a hb])) as [IHends IHstops].
      split.
      * intros collected Hends. rewrite (IHends collected Hends).
        cbn [fst snd]. now rewrite app_assoc.
      * intros Hnot. now rewrite (IHstops Hnot).
Qed.

Lemma loop_over_two_lists_witness :
  enrich_each (Sample.stub "" Sample.catalog_ok)
    ([PyDict [("title", PyStr "Dune")]] ++ [PyDict [("title", PyStr "Emma")]]) []
  = (fst (enrich_each (Sample.stub "" Sample.catalog_ok)
            [PyDict [("title", PyStr "Emma")]]
            [response_record (PyStr "Dune") (PyStr "")
               (PyList [Sample.dune_hit])]),
     snd (enrich_each (Sample.stub "" Sample.catalog_ok)
            [PyDict [("title", PyStr "Dune")]] [])
     ++ snd (enrich_each (Sample.stub "" Sample.catalog_ok)
               [PyDict [("title", PyStr "Emma")]]
               [response_record (PyStr "Dune") (PyStr "")
                  (PyList [Sample.dune_hit])]))
  /\
  enrich_each (Sample.stub "" Sample.catalog_down)
    ([PyDict [("title", PyStr "Dune")]] ++ [PyInt 1]) []
  = enrich_each (Sample.stub "" Sample.catalog_down)
      [PyDict [("title", PyStr "Dune")]] [].
Proof.
  split.
  - apply (proj1 (loop_over_two_lists (Sample.stub "" Sample.catalog_ok)
                    [PyDict [("title", PyStr "Dune")]]
                    [PyDict [("title", PyStr "Emma")]] [])).
    reflexivity.
  - apply (proj2 (loop_over_two_lists (Sample.stub "" Sample.catalog_down)
                    [PyDict [("title", PyStr "Dune")]] [PyInt 1] [])).
    intros collected. discriminate.
Defined.

(** *** An answer that is no object *)

Lemma enrich_first_non_object (w : world) (title answer : pyval) :
  fst (query_hardcover_graphql w title) = Returns answer ->
  is_object answer = false ->
  forall books acc,
    hd_error (catalog_calls (snd (enrich_each w books acc))) = Some title ->
    exists e,
      fst (enrich_each w books acc) = Raises e /\ is_Exception e = true.
Proof.
  intros Hanswer Hkind. induction books as [|book rest IH]; intros acc Hhd.
  - discriminate Hhd.
  - cbn [enrich_each] in *.
    destruct (get book "title" (PyStr "")) as [e|t];
      [rewrite bind_lift_raises in Hhd; discriminate Hhd|].
    rewrite bind_lift_returns in *.
    destruct (get book "author" (PyStr "")) as [e|a];
      [rewrite bind_lift_raises in Hhd; discriminate Hhd|].
    rewrite bind_lift_returns in *.
    destruct (truthy t); cbn [negb] in *; [|now apply IH].
    assert (t = title) as ->.
    { rewrite snd_bind in Hhd. pose proof (query_trace w t) as Htrace.
      destruct (fst (query_hardcover_graphql w t));
        rewrite Htrace in Hhd; simpl in Hhd; congruence. }
    rewrite fst_bind, Hanswer, fst_bind.
    destruct answer as [|b|z|f|s|items|entries]; try discriminate Hkind;
      cbn [contains lift fst]; try (eexists; split; reflexivity).
    + destruct (substring_of "error" s); rewrite fst_bind; cbn;
        eexists; split; reflexivity.
    + destruct (existsb (eq_str "error") items); rewrite fst_bind; cbn;
        eexists; split; reflexivity.
Qed.

(** X19. When the first lookup of a request is answered with something that is
    not a JSON object (a ["data"] that is [null], a list, a string or a
    number), the view raises and the client gets the 500 page of an
    unhandled exception. *)
Theorem answer_that_is_no_object_raises (w : world) (temp_name : string)
    (rq : request) (title answer : pyval) :
  hd_error (catalog_calls (calls w temp_name rq)) = Some title ->
  fst (query_hardcover_graphql w title) = Returns answer ->
  is_object answer = false ->
  serve w temp_name rq = InternalServerError.
Proof.
  intros Hfirst Hanswer Hkind. unfold serve, calls in *.
  destruct (process_image_shape w temp_name rq)
    as [d Hp | file e _ Hp | file _ _ Hp | file text e _ _ _ Hp
        | file text d _ _ _ Hp | file text cleaned books _ _ _ _ _ _ Hp];
    rewrite Hp in *; cbn [fst snd catalog_calls] in *; try discriminate Hfirst.
  destruct (enrich_first_non_object w title answer Hanswer Hkind books [] Hfirst)
    as (e & -> & He).
  cbn [finish respond]. now rewrite He.
Qed.

Lemma answer_that_is_no_object_raises_witness :
  serve (Cases.fixed Cases.reads_dune Cases.answered Cases.dune_books
           (Cases.catalog_says (PyDict [("data", PyNone)])))
        "/tmp/a" Sample.upload
  = InternalServerError.
Proof.
  apply (answer_that_is_no_object_raises
           (Cases.fixed Cases.reads_dune Cases.answered Cases.dune_books
              (Cases.catalog_says (PyDict [("data", PyNone)])))
           "/tmp/a" Sample.upload (PyStr "Dune") PyNone);
    reflexivity.
Defined.

(** *** The text of a 200 reply *)

(** X20. The ["extracted_text"] of a 200 reply is never empty: it is the string
    [ocr_image] returned for the uploaded file, which passed the test of
    line 191. *)
Theorem ok_reply_has_text (w : world) (temp_name : string) (rq : request)
    (body : pyval) :
  serve w temp_name rq = JsonReply 200 body ->
  exists file text records,
    files_get "file" (files rq) = Some file
    /\ filename file <> ""
    /\ fst (ocr_image w temp_name (stream file)) = Returns text
    /\ text <> ""
    /\ body = PyDict [("extracted_text", PyStr text);
                      ("books_info", PyList records)].
Proof.
  intros Hserve.
  destruct (reaches_loop_or_stops w temp_name rq)
    as [(file & text & cleaned & books & Hfile & Hname & Hocr & Htext
         & Hclean & Hin & Hiter) | [_ Hnot]].
  2:{ now apply Hnot in Hserve. }
  pose proof (process_image_loop w temp_name rq file text cleaned books
                Hfile Hname Hocr Htext Hclean Hin Hiter) as Hrun.
  unfold serve in Hserve. rewrite Hrun in Hserve. cbn [fst] in Hserve.
  destruct (fst (enrich_each w books [])) as [e|[returned|all]] eqn:Hloop;
    cbn [finish] in Hserve; [now apply respond_raises in Hserve | |].
  - apply enrich_each_returned_error in Hloop as [detail ->].
    discriminate Hserve.
  - injection Hserve as <-. now exists file, text, all.
Qed.

Lemma ok_reply_has_text_witness :
  exists file text records,
    files_get "file" (files Sample.upload) = Some file
    /\ filename file <> ""
    /\ fst (ocr_image (Sample.stub "{books: [untitled]}" Sample.catalog_ok)
              "/tmp/a" (stream file)) = Returns text
    /\ text <> ""
    /\ PyDict [("extracted_text", PyStr "Dune Frank Herbert");
               ("books_info", PyList [])]
       = PyDict [("extracted_text", PyStr text); ("books_info", PyList records)].
Proof.
  apply (ok_reply_has_text (Sample.stub "{books: [untitled]}" Sample.catalog_ok)
           "/tmp/a" Sample.upload).
  reflexivity.
Defined.

End OrchestrateFacts.
